(** * ai-note-summarizer: the mobile client's service layer

    A shallow embedding of the asynchronous job client
    ([summariesApi.generateWithPolling]), of the storage wrappers
    ([storage], [guestStorage], [userStorage], [notesCache],
    [settingsStorage]), of the identity bootstrap of the [useUser] hook
    ([initializeUser]) and of the [useNotes] and [useSummary] hooks,
    followed by the properties the specification states about them and by
    further properties read off the code.

    Asynchronous functions are computations in a state-and-exception monad
    over a [World]: the device clock, the contents of AsyncStorage, the
    remote service and the trace of observable events (network calls,
    timers, progress callbacks).  The client is single-threaded and every
    [await] in the modelled functions is sequential, so [await e] is the
    monadic bind. *)

From Stdlib Require Import ZArith QArith Qround String DecimalString List Lia.
From stdpp Require Import gmap strings list.

Local Open Scope string_scope.
Local Open Scope list_scope.
Local Open Scope Z_scope.

(** ** JavaScript values the service layer relies on *)

Module Js.

(** What a [throw] can carry in this code base: a plain [Error], or the
    [ApiServiceError] of the transport layer. *)
Inductive Exn : Type :=
| Error (message : string)
| ApiServiceError (message : string) (status : Z) (detail : string).

Definition exn_message (e : Exn) : string :=
  match e with
  | Error m => m
  | ApiServiceError m _ _ => m
  end.

(** Truthiness of a string: the empty string is falsy. *)
Definition truthy_string (s : string) : bool :=
  match s with
  | EmptyString => false
  | String _ _ => true
  end.

(** [x || d] on an optional string ([undefined], [null] and the empty
    string all select [d]). *)
Definition str_or (x : option string) (d : string) : string :=
  match x with
  | Some s => if truthy_string s then s else d
  | None => d
  end.

(** [x || d] on an optional integral number. *)
Definition int_or (x : option Z) (d : Z) : Z :=
  match x with
  | Some n => if n =? 0 then d else n
  | None => d
  end.

(** [x || d] on an optional fractional number.  Numbers that arrive in a
    JSON body are finite, so they are rationals here. *)
Definition num_or (x : option Q) (d : Q) : Q :=
  match x with
  | Some q => if Qnum q =? 0 then d else q
  | None => d
  end.

(** [Math.round]: the nearest integer, ties towards +infinity. *)
Definition Math_round (q : Q) : Z := Qfloor (q + (1 # 2)).

(** [`${n}`] for an integral number (of magnitude below 1e21, where
    JavaScript prints every digit). *)
Definition int_to_string (n : Z) : string :=
  NilZero.string_of_int (Z.to_int n).

End Js.

Export Js.

(** ** Data model (the [types] module and the wire shapes of [api.ts]) *)

Module Types.

Record User : Type := mkUser {
  user_id : Z;
  guest_id : option string;
  email : option string;
  display_name : string;
  is_guest : bool;
  user_created_at : string;
}.

Record CreateUserRequest : Type := mkCreateUserRequest {
  req_display_name : option string;
  req_email : option string;
  req_is_guest : option bool;
}.

Inductive NoteSourceType : Type := src_text | src_pdf | src_upload.

Record NoteListItem : Type := mkNoteListItem {
  item_id : Z;
  item_title : string;
  item_source_type : NoteSourceType;
  item_char_count : Z;
  item_created_at : string;
  item_summary_count : Z;
  item_content_preview : string;
}.

Inductive SummaryStyle : Type := best_fit | technical | casual.
Inductive SummaryType : Type := summary_t | key_points | flashcards.

Record GenerateSummaryRequest : Type := mkGenerateSummaryRequest {
  line_count : option Z;
  req_summary_type : option SummaryType;
  req_summary_style : option SummaryStyle;
  force_regenerate : option bool;
}.

(** [options || {}]: the body sent when the caller passes no options. *)
Definition empty_request : GenerateSummaryRequest :=
  mkGenerateSummaryRequest None None None None.

(** The [Summary] a caller receives.  [summary_type] and [summary_length]
    are copied from the wire with [as any], so they stay strings. *)
Record Summary : Type := mkSummary {
  id : Z;
  note_id : Z;
  content : string;
  summary_type : string;
  summary_length : string;
  ai_provider : string;
  ai_model : string;
  generation_time_ms : Z;
  token_count : Z;
  compression_ratio : Q;
  created_at : string;
}.

(** The [summary] object embedded in an [AsyncJobResponse]. *)
Record SummaryPayload : Type := mkSummaryPayload {
  p_id : Z;
  p_content : string;
  p_summary_type : string;
  p_summary_length : string;
  p_summary_style : option string;
  p_ai_provider : option string;
  p_ai_model : option string;
  p_generation_time_ms : option Z;
  p_token_count : option Z;
  p_compression_ratio : option Q;
  p_created_at : option string;
}.

Inductive JobStatus : Type := pending | processing | completed | failed.

Definition status_string (s : JobStatus) : string :=
  match s with
  | pending => "pending"
  | processing => "processing"
  | completed => "completed"
  | failed => "failed"
  end.

Record AsyncJobResponse : Type := mkAsyncJobResponse {
  job_id : option string;
  status : JobStatus;
  progress : Q;
  cached : option bool;
  summary : option SummaryPayload;
  error : option string;
}.

(** The notes cache blob, [{ notes, timestamp }]. *)
Record CachedNotes : Type := mkCachedNotes {
  notes : list NoteListItem;
  timestamp : Z;
}.

Inductive SummaryLengthPref : Type := len_short | len_medium | len_long.

Record AppSettings : Type := mkAppSettings {
  defaultSummaryLength : SummaryLengthPref;
  defaultSummaryType : SummaryType;
  darkMode : bool;
}.

End Types.

Export Types.

(** ** Application constants ([constants.ts]) *)

Module Constants.

Definition POLL_INTERVAL : Z := 2000.
Definition GUEST_ID : string := "@ainotes/guest_id".
Definition USER_DATA : string := "@ainotes/user_data".
Definition NOTES_CACHE : string := "@ainotes/notes_cache".
Definition SETTINGS : string := "@ainotes/settings".
Definition STORAGE_KEYS : list string := [GUEST_ID; USER_DATA; NOTES_CACHE; SETTINGS].

End Constants.

(** ** The world an asynchronous function runs in *)

Module Runtime.

(** A request the client sends through [apiClient]. *)
Inductive Request : Type :=
| PostGenerateAsync (noteId : Z) (body : GenerateSummaryRequest)
| GetJobStatus (jobId : string)
| GetUserByGuestId (guestId : string)
| PostUsers (body : CreateUserRequest).

(** What an observer of one run can see, oldest first. *)
Inductive Event : Type :=
| EvRequest (r : Request)
| EvTimer (ms : Z)
| EvProgress (status message : string).


Definition is_job_status_call (e : Event) : bool :=
  match e with EvRequest (GetJobStatus _) => true | _ => false end.

Definition is_progress (e : Event) : bool :=
  match e with EvProgress _ _ => true | _ => false end.

(** The [AxiosError] handed to the response interceptor: the status and the
    [detail] of the error body when a response came back, and the failure's
    own message. *)
Record AxiosError : Type := mkAxiosError {
  response_status : option Z;
  response_detail : option string;
  axios_message : string;
}.

Inductive Reply (T : Type) : Type :=
| Ok (data : T)
| Rejected (err : AxiosError).
Arguments Ok {T} data.
Arguments Rejected {T} err.

(** The remote service, as the client meets it.  The reply to a job-status
    call may depend on how many job-status calls were made before it. *)
Record Remote : Type := mkRemote {
  generateAsync_reply : Z -> GenerateSummaryRequest -> Reply AsyncJobResponse;
  getJobStatus_reply : nat -> string -> Reply AsyncJobResponse;
  getByGuestId_reply : string -> Reply User;
  users_create_reply : CreateUserRequest -> Reply User;
}.

(** What AsyncStorage holds under a key: the JSON text of a value, kept up to
    [JSON.parse (JSON.stringify v) = v], or text that does not parse. *)
Inductive Blob : Type :=
| BlobString (s : string)
| BlobUser (u : User)
| BlobNotes (c : CachedNotes)
| BlobSettings (s : AppSettings)
| BlobGarbage (raw : string).

(** State of the [useUser] hook. *)
Record UseUserState : Type := mkUseUserState {
  user : option User;
  isLoading : bool;
  hook_error : option string;
}.

(** The clock moves at timers only: a network or storage call takes no
    time of its own. *)
Record World : Type := mkWorld {
  clock : Z;                 (* Date.now(), in milliseconds *)
  disk : gmap string Blob;   (* AsyncStorage *)
  faults : list bool;        (* the coming AsyncStorage calls: true rejects *)
  remote : Remote;
  hook : UseUserState;
  trace : list Event;
}.

Definition set_clock (t : Z) (w : World) : World :=
  mkWorld t (disk w) (faults w) (remote w) (hook w) (trace w).
Definition set_disk (d : gmap string Blob) (w : World) : World :=
  mkWorld (clock w) d (faults w) (remote w) (hook w) (trace w).
Definition set_faults (f : list bool) (w : World) : World :=
  mkWorld (clock w) (disk w) f (remote w) (hook w) (trace w).
Definition set_hook (h : UseUserState) (w : World) : World :=
  mkWorld (clock w) (disk w) (faults w) (remote w) h (trace w).
Definition log (e : Event) (w : World) : World :=
  mkWorld (clock w) (disk w) (faults w) (remote w) (hook w) (trace w ++ [e]).

Definition job_status_calls (w : World) : nat :=
  length (filter is_job_status_call (trace w)).

Definition progress_events (w : World) : list Event :=
  filter is_progress (trace w).


(** *** The monad *)

Inductive Outcome (A : Type) : Type :=
| Ret (a : A)
| Throw (e : Exn).
Arguments Ret {A} a.
Arguments Throw {A} e.

Definition M (A : Type) : Type := World -> Outcome A * World.

Definition ret {A} (a : A) : M A := fun w => (Ret a, w).

Definition throw {A} (e : Exn) : M A := fun w => (Throw e, w).

Definition bind {A B} (m : M A) (k : A -> M B) : M B :=
  fun w =>
    match m w with
    | (Ret a, w') => k a w'
    | (Throw e, w') => (Throw e, w')
    end.

(** [try { m } catch (e) { h e }] *)
Definition try_catch {A} (m : M A) (h : Exn -> M A) : M A :=
  fun w =>
    match m w with
    | (Ret a, w') => (Ret a, w')
    | (Throw e, w') => h e w'
    end.

(** [try { m } finally { f }]: [f] runs either way; if [f] itself throws,
    that error replaces the outcome of [m]. *)
Definition try_finally {A} (m : M A) (f : M unit) : M A :=
  fun w =>
    match m w with
    | (r, w') =>
        match f w' with
        | (Ret _, w'') => (r, w'')
        | (Throw e, w'') => (Throw e, w'')
        end
    end.

Definition modify (f : World -> World) : M unit := fun w => (Ret tt, f w).

Definition gets {A} (f : World -> A) : M A := fun w => (Ret (f w), w).

Declare Scope world_scope.
Delimit Scope world_scope with world.
Notation "x <- m ;; k" := (bind m (fun x => k))
  (at level 100, m at next level, k at level 200, right associativity) : world_scope.
Notation "m ;; k" := (bind m (fun _ => k))
  (at level 100, k at level 200, right associativity) : world_scope.
Local Open Scope world_scope.

(** [await new Promise(resolve => setTimeout(resolve, ms))] *)
Definition sleep (ms : Z) : M unit :=
  modify (fun w => log (EvTimer ms) (set_clock (clock w + ms) w)).

(** [Date.now()] *)
Definition Date_now : M Z := gets clock.

End Runtime.

Export Runtime.

Local Open Scope world_scope.

(** ** The API service layer ([services/api.ts]) *)

Module Api.

(** The response interceptor's error branch: every failed call is rethrown
    as an [ApiServiceError]. *)
Definition intercept_error (err : AxiosError) : Exn :=
  let status := int_or (response_status err) 500 in
  let detail := str_or (response_detail err) (axios_message err) in
  ApiServiceError ("API Error: " +:+ detail) status detail.

(** One call through [apiClient]: the request goes out, and the reply is
    either the response's [data] or the interceptor's error. *)
Definition call {T} (r : Request) (reply : World -> Reply T) : M T :=
  fun w =>
    match reply w with
    | Ok data => (Ret data, log (EvRequest r) w)
    | Rejected err => (Throw (intercept_error err), log (EvRequest r) w)
    end.

Definition users_create (data : option CreateUserRequest) : M User :=
  let body := default (mkCreateUserRequest None None None) data in
  call (PostUsers body) (fun w => users_create_reply (remote w) body).

Definition users_getByGuestId (guestId : string) : M User :=
  call (GetUserByGuestId guestId) (fun w => getByGuestId_reply (remote w) guestId).

Definition generateAsync (noteId : Z) (options : option GenerateSummaryRequest)
  : M AsyncJobResponse :=
  let body := default empty_request options in
  call (PostGenerateAsync noteId body)
       (fun w => generateAsync_reply (remote w) noteId body).

Definition getJobStatus (jobId : string) : M AsyncJobResponse :=
  call (GetJobStatus jobId)
       (fun w => getJobStatus_reply (remote w) (job_status_calls w) jobId).

(** An [onProgress] callback.  It is told the status and the message; what
    it does with them is its own business, except that it may throw.  It may
    keep state between invocations, so its behaviour is a function of the
    progress events delivered before: [None] when it returns, [Some e] when
    it throws [e]. *)
Definition Callback : Type := list Event -> string -> string -> option Exn.

(** [if (onProgress) onProgress(status, message)] *)
Definition notify (onProgress : option Callback) (st msg : string) : M unit :=
  match onProgress with
  | None => ret tt
  | Some cb =>
      fun w =>
        match cb (progress_events w) st msg with
        | None => (Ret tt, log (EvProgress st msg) w)
        | Some e => (Throw e, log (EvProgress st msg) w)
        end
  end.

Definition maxAttempts : nat := 180.

(** [API_CONFIG.POLL_INTERVAL || 2000] *)
Definition pollInterval : Z := int_or (Some Constants.POLL_INTERVAL) 2000.

(** [job.cached && job.summary]: the payload when both are truthy. *)
Definition cache_hit (job : AsyncJobResponse) : option SummaryPayload :=
  match cached job with
  | Some true => summary job
  | _ => None
  end.

(** [status.status === 'completed' && status.summary] *)
Definition completed_summary (st : AsyncJobResponse) : option SummaryPayload :=
  match status st with
  | completed => summary st
  | _ => None
  end.

(** The job id when [job.job_id] is truthy. *)
Definition usable_job_id (job : AsyncJobResponse) : option string :=
  match job_id job with
  | Some j => if truthy_string j then Some j else None
  | None => None
  end.

Definition progress_message (st : AsyncJobResponse) : string :=
  match status st with
  | processing =>
      "Processing... (" +:+ int_to_string (Math_round (progress st)) +:+ "%)"
  | s => status_string s
  end.

Section Polling.

(** [Date.prototype.toISOString], of the time in milliseconds. *)
Variable toISOString : Z -> string.

(** The object literal both return sites build; they differ in the model
    name used when the service gives none. *)
Definition normalize (noteId : Z) (model_default : string) (now : Z)
    (s : SummaryPayload) : Summary :=
  {| id := p_id s;
     note_id := noteId;
     content := p_content s;
     summary_type := p_summary_type s;
     summary_length := p_summary_length s;
     ai_provider := str_or (p_ai_provider s) "unknown";
     ai_model := str_or (p_ai_model s) model_default;
     generation_time_ms := int_or (p_generation_time_ms s) 0;
     token_count := int_or (p_token_count s) 0;
     compression_ratio := num_or (p_compression_ratio s) 0%Q;
     created_at := str_or (p_created_at s) (toISOString now) |}.

(** The [for] loop, by the number of attempts still allowed
    ([maxAttempts - attempt]); falling out of it is the timeout. *)
Fixpoint poll (noteId : Z) (onProgress : option Callback) (jobId : string)
    (remaining : nat) : M Summary :=
  match remaining with
  | O => throw (Error "Summary generation timed out")
  | S remaining' =>
      sleep pollInterval ;;
      st <- getJobStatus jobId ;;
      notify onProgress (status_string (status st)) (progress_message st) ;;
      match completed_summary st with
      | Some s =>
          now <- Date_now ;;
          ret (normalize noteId "unknown" now s)
      | None =>
          match status st with
          | failed => throw (Error (str_or (error st) "Summary generation failed"))
          | _ => poll noteId onProgress jobId remaining'
          end
      end
  end.

Definition generateWithPolling (noteId : Z) (options : option GenerateSummaryRequest)
    (onProgress : option Callback) : M Summary :=
  notify onProgress "pending" "Starting summary job..." ;;
  job <- generateAsync noteId options ;;
  match cache_hit job with
  | Some s =>
      notify onProgress "completed" "Using cached summary" ;;
      now <- Date_now ;;
      ret (normalize noteId "cached" now s)
  | None =>
      match usable_job_id job with
      | None => throw (Error "No job ID returned")
      | Some jobId => poll noteId onProgress jobId maxAttempts
      end
  end.

End Polling.

End Api.

(** ** Local persistence ([services/storage.ts]) *)

Module Storage.

(** *** AsyncStorage

    Each call consumes the next entry of [faults]; a [true] entry makes the
    call reject.  When [faults] is exhausted the store is healthy.  A
    rejected call is taken to leave the store as it was; the source does
    not say what a failed write leaves behind, and no property below is
    stated about it. *)

Definition next_fault (w : World) : bool * World :=
  match faults w with
  | [] => (false, w)
  | b :: rest => (b, set_faults rest w)
  end.

Definition AsyncStorage_call {A} (op : World -> A * World) : M A :=
  fun w =>
    match next_fault w with
    | (true, w') => (Throw (Error "AsyncStorage failure"), w')
    | (false, w') => let (a, w'') := op w' in (Ret a, w'')
    end.

Definition AsyncStorage_getItem (key : string) : M (option Blob) :=
  AsyncStorage_call (fun w => (disk w !! key, w)).

Definition AsyncStorage_setItem (key : string) (value : Blob) : M unit :=
  AsyncStorage_call (fun w => (tt, set_disk (<[key := value]> (disk w)) w)).

Definition AsyncStorage_removeItem (key : string) : M unit :=
  AsyncStorage_call (fun w => (tt, set_disk (delete key (disk w)) w)).

Definition AsyncStorage_multiRemove (keys : list string) : M unit :=
  AsyncStorage_call
    (fun w => (tt, set_disk (foldr (fun k d => delete k d) (disk w) keys) w)).

(** *** JSON

    The values this module stores, with [JSON.stringify] and [JSON.parse]
    on them.  Every key is written by one typed wrapper only; text of
    another shape under a key is read like text that does not parse.
    ([storage.get] itself hands on whatever parses, unchecked; what a
    caller does with a value of another shape is not modelled, and the
    properties of the notes hook are stated for stores without one.) *)
Class Storable (T : Type) : Type := {
  stringify : T -> Blob;
  parse : Blob -> option T;
}.

#[export] Instance Storable_string : Storable string :=
  {| stringify := BlobString;
     parse := fun b => match b with BlobString s => Some s | _ => None end |}.

#[export] Instance Storable_User : Storable User :=
  {| stringify := BlobUser;
     parse := fun b => match b with BlobUser u => Some u | _ => None end |}.

#[export] Instance Storable_CachedNotes : Storable CachedNotes :=
  {| stringify := BlobNotes;
     parse := fun b => match b with BlobNotes c => Some c | _ => None end |}.

#[export] Instance Storable_AppSettings : Storable AppSettings :=
  {| stringify := BlobSettings;
     parse := fun b => match b with BlobSettings s => Some s | _ => None end |}.

Definition JSON_parse {T} `{Storable T} (value : Blob) : M T :=
  match parse value with
  | Some v => ret v
  | None => throw (Error "JSON Parse error")
  end.

(** Truthiness of the stored text: only the empty text is falsy. *)
Definition truthy_text (value : Blob) : bool :=
  match value with
  | BlobGarbage raw => truthy_string raw
  | _ => true
  end.

(** *** [storage] *)

Definition storage_get {T} `{Storable T} (key : string) : M (option T) :=
  try_catch
    (value <- AsyncStorage_getItem key ;;
     match value with
     | Some text =>
         if truthy_text text
         then (v <- JSON_parse text ;; ret (Some v))
         else ret None
     | None => ret None
     end)
    (fun _ => ret None).

Definition storage_set {T} `{Storable T} (key : string) (value : T) : M unit :=
  try_catch (AsyncStorage_setItem key (stringify value)) (fun _ => ret tt).

Definition storage_remove (key : string) : M unit :=
  try_catch (AsyncStorage_removeItem key) (fun _ => ret tt).

Definition storage_clear : M unit :=
  try_catch (AsyncStorage_multiRemove Constants.STORAGE_KEYS) (fun _ => ret tt).

(** *** [guestStorage], [userStorage] *)

Definition getGuestId : M (option string) := storage_get Constants.GUEST_ID.
Definition setGuestId (guestId : string) : M unit :=
  storage_set Constants.GUEST_ID guestId.
Definition clearGuestId : M unit := storage_remove Constants.GUEST_ID.

Definition getUser : M (option User) := storage_get Constants.USER_DATA.
Definition setUser (u : User) : M unit := storage_set Constants.USER_DATA u.
Definition clearUser : M unit := storage_remove Constants.USER_DATA.

(** *** [notesCache] *)

Definition freshnessWindow : Z := 5 * 60 * 1000.

Definition getNotes : M (list NoteListItem) :=
  cached <- storage_get Constants.NOTES_CACHE ;;
  now <- Date_now ;;
  match cached with
  | Some c => if now - timestamp c <? freshnessWindow then ret (notes c) else ret []
  | None => ret []
  end.

Definition setNotes (items : list NoteListItem) : M unit :=
  now <- Date_now ;;
  storage_set Constants.NOTES_CACHE (mkCachedNotes items now).

Definition clearCache : M unit := storage_remove Constants.NOTES_CACHE.

End Storage.

(** ** The [useUser] hook (the custom hooks module) *)

Module Hooks.

Import Storage.

Definition setUserState (u : option User) : M unit :=
  modify (fun w => set_hook (mkUseUserState u (isLoading (hook w)) (hook_error (hook w))) w).

Definition setIsLoading (b : bool) : M unit :=
  modify (fun w => set_hook (mkUseUserState (user (hook w)) b (hook_error (hook w))) w).

Definition setError (e : option string) : M unit :=
  modify (fun w => set_hook (mkUseUserState (user (hook w)) (isLoading (hook w)) e) w).

(** [err instanceof ApiServiceError ? err.detail : 'Failed to initialize user'] *)
Definition init_error_text (err : Exn) : string :=
  match err with
  | ApiServiceError _ _ detail => detail
  | Error _ => "Failed to initialize user"
  end.

(** The guest-token branch.  Its result says whether the function returned
    from inside the inner [try]; the inner [catch] swallows whatever the
    lookup throws. *)
Definition lookup_by_guest_id (guestId : option string) : M bool :=
  match guestId with
  | Some g =>
      if truthy_string g
      then
        try_catch
          (existingUser <- Api.users_getByGuestId g ;;
           setUser existingUser ;;
           setUserState (Some existingUser) ;;
           setIsLoading false ;;
           ret true)
          (fun _ => ret false)
      else ret false
  | None => ret false
  end.

Definition create_guest : M unit :=
  newUser <- Api.users_create (Some (mkCreateUserRequest None None (Some true))) ;;
  match guest_id newUser with
  | Some g => if truthy_string g then setGuestId g else ret tt
  | None => ret tt
  end ;;
  setUser newUser ;;
  setUserState (Some newUser).

Definition initializeUser : M unit :=
  setIsLoading true ;;
  setError None ;;
  try_finally
    (try_catch
       (storedUser <- getUser ;;
        match storedUser with
        | Some u => setUserState (Some u) ;; setIsLoading false
        | None =>
            guestId <- getGuestId ;;
            returned <- lookup_by_guest_id guestId ;;
            if (returned : bool) then ret tt else create_guest
        end)
       (fun err => setError (Some (init_error_text err))))
    (setIsLoading false).

Definition clearUserHook : M unit :=
  clearGuestId ;;
  clearUser ;;
  setUserState None.

End Hooks.

(** ** [settingsStorage] ([services/storage.ts]) *)

Module Settings.

Import Storage.

Definition DEFAULT_SETTINGS : AppSettings := mkAppSettings len_medium summary_t false.

(** A [Partial<AppSettings>]: a field is [Some v] when the key is present
    with value [v], [None] when the key is absent. *)
Record SettingsPatch : Type := mkSettingsPatch {
  patch_defaultSummaryLength : option SummaryLengthPref;
  patch_defaultSummaryType : option SummaryType;
  patch_darkMode : option bool;
}.

(** [{ ...current, ...settings }] *)
Definition spread (current : AppSettings) (settings : SettingsPatch) : AppSettings :=
  {| defaultSummaryLength :=
       default (defaultSummaryLength current) (patch_defaultSummaryLength settings);
     defaultSummaryType :=
       default (defaultSummaryType current) (patch_defaultSummaryType settings);
     darkMode := default (darkMode current) (patch_darkMode settings) |}.

Definition getSettings : M AppSettings :=
  settings <- storage_get Constants.SETTINGS ;;
  ret (default DEFAULT_SETTINGS settings).

Definition setSettings (settings : SettingsPatch) : M unit :=
  current <- getSettings ;;
  storage_set Constants.SETTINGS (spread current settings).

Definition resetSettings : M unit := storage_set Constants.SETTINGS DEFAULT_SETTINGS.

End Settings.

(** ** The notes and summary hooks, over the whole application state *)

Module App.

Import Api Storage.

Record Note : Type := mkNote {
  note_ident : Z;
  note_title : string;
  note_content : string;
  note_source_type : NoteSourceType;
  original_filename : option string;
  char_count : Z;
  note_created_at : string;
  updated_at : option string;
  note_user_id : option Z;
  summary_count : Z;
}.

Record CreateNoteRequest : Type := mkCreateNoteRequest {
  new_title : string;
  new_content : string;
  new_source_type : option NoteSourceType;
}.

(** The calls of [notesApi] and [summariesApi.getForNote], with the query
    parameters they carry. *)
Inductive AppRequest : Type :=
| GetNotes (user_id : option Z)
| PostNote (data : CreateNoteRequest) (user_id : option Z)
| DeleteNote (noteId : Z)
| GetSummariesForNote (noteId : Z).

(** The notes side of the remote service.  A reply may depend on the calls
    made before it. *)
Record Backend : Type := mkBackend {
  notes_list_reply : list AppRequest -> option Z -> Reply (list NoteListItem);
  notes_create_reply : list AppRequest -> CreateNoteRequest -> option Z -> Reply Note;
  notes_delete_reply : list AppRequest -> Z -> Reply unit;
  getForNote_reply : list AppRequest -> Z -> Reply (list Summary);
}.

(** State of the [useNotes] hook. *)
Record UseNotesState : Type := mkUseNotesState {
  shown_notes : list NoteListItem;
  notes_isLoading : bool;
  notes_error : option string;
}.

(** State of the [useSummary] hook. *)
Record UseSummaryState : Type := mkUseSummaryState {
  summaries : list Summary;
  currentSummary : option Summary;
  isGenerating : bool;
  progressMessage : string;
  summary_error : option string;
}.

Record AppState : Type := mkAppState {
  device : World;
  backend : Backend;
  outbox : list AppRequest;
  notes_hook : UseNotesState;
  summary_hook : UseSummaryState;
}.

Definition set_device (w : World) (a : AppState) : AppState :=
  mkAppState w (backend a) (outbox a) (notes_hook a) (summary_hook a).
Definition set_notes_hook (h : UseNotesState) (a : AppState) : AppState :=
  mkAppState (device a) (backend a) (outbox a) h (summary_hook a).
Definition set_summary_hook (h : UseSummaryState) (a : AppState) : AppState :=
  mkAppState (device a) (backend a) (outbox a) (notes_hook a) h.
Definition post (r : AppRequest) (a : AppState) : AppState :=
  mkAppState (device a) (backend a) (outbox a ++ [r]) (notes_hook a) (summary_hook a).

(** *** The monad, over the application state *)

Definition AppM (A : Type) : Type := AppState -> Outcome A * AppState.

Definition aret {A} (x : A) : AppM A := fun a => (Ret x, a).

Definition abind {A B} (m : AppM A) (k : A -> AppM B) : AppM B :=
  fun a =>
    match m a with
    | (Ret x, a') => k x a'
    | (Throw e, a') => (Throw e, a')
    end.

Definition acatch {A} (m : AppM A) (h : Exn -> AppM A) : AppM A :=
  fun a =>
    match m a with
    | (Ret x, a') => (Ret x, a')
    | (Throw e, a') => h e a'
    end.

Definition afinally {A} (m : AppM A) (f : AppM unit) : AppM A :=
  fun a =>
    match m a with
    | (r, a') =>
        match f a' with
        | (Ret _, a'') => (r, a'')
        | (Throw e, a'') => (Throw e, a'')
        end
    end.

Definition amodify (f : AppState -> AppState) : AppM unit := fun a => (Ret tt, f a).

Definition agets {A} (f : AppState -> A) : AppM A := fun a => (Ret (f a), a).

(** A computation of the service layer, run on the device. *)
Definition on_device {A} (m : M A) : AppM A :=
  fun a => let (r, w') := m (device a) in (r, set_device w' a).

Declare Scope app_scope.
Delimit Scope app_scope with app.
Notation "x <- m ;; k" := (abind m (fun x => k))
  (at level 100, m at next level, k at level 200, right associativity) : app_scope.
Notation "m ;; k" := (abind m (fun _ => k))
  (at level 100, k at level 200, right associativity) : app_scope.
Local Open Scope app_scope.

(** *** [notesApi], [summariesApi.getForNote] *)

Definition acall {T} (r : AppRequest) (reply : AppState -> Reply T) : AppM T :=
  fun a =>
    match reply a with
    | Ok data => (Ret data, post r a)
    | Rejected err => (Throw (intercept_error err), post r a)
    end.

(** [notesApi.list({ user_id: userId })] *)
Definition notes_list (user_id : option Z) : AppM (list NoteListItem) :=
  acall (GetNotes user_id) (fun a => notes_list_reply (backend a) (outbox a) user_id).

(** [userId ? { user_id: userId } : {}] *)
Definition create_params (userId : option Z) : option Z :=
  match userId with
  | Some n => if n =? 0 then None else Some n
  | None => None
  end.

Definition notes_create (data : CreateNoteRequest) (userId : option Z) : AppM Note :=
  let params := create_params userId in
  acall (PostNote data params)
        (fun a => notes_create_reply (backend a) (outbox a) data params).

Definition notes_delete (noteId : Z) : AppM unit :=
  acall (DeleteNote noteId) (fun a => notes_delete_reply (backend a) (outbox a) noteId).

Definition getForNote (noteId : Z) : AppM (list Summary) :=
  acall (GetSummariesForNote noteId)
        (fun a => getForNote_reply (backend a) (outbox a) noteId).

(** [err instanceof ApiServiceError ? err.detail : fallback] *)
Definition error_text (err : Exn) (fallback : string) : string :=
  match err with
  | ApiServiceError _ _ detail => detail
  | Error _ => fallback
  end.

(** *** [useNotes] *)

Definition setNotesShown (f : list NoteListItem -> list NoteListItem) : AppM unit :=
  amodify (fun a =>
    set_notes_hook (mkUseNotesState (f (shown_notes (notes_hook a)))
                      (notes_isLoading (notes_hook a)) (notes_error (notes_hook a))) a).

Definition setNotesLoading (b : bool) : AppM unit :=
  amodify (fun a =>
    set_notes_hook (mkUseNotesState (shown_notes (notes_hook a)) b
                      (notes_error (notes_hook a))) a).

Definition setNotesError (e : option string) : AppM unit :=
  amodify (fun a =>
    set_notes_hook (mkUseNotesState (shown_notes (notes_hook a))
                      (notes_isLoading (notes_hook a)) e) a).

Section UseNotes.

(** The [userId] the hook was called with. *)
Variable userId : option Z.

Definition refresh : AppM unit :=
  setNotesLoading true ;;
  setNotesError None ;;
  afinally
    (acatch
       (fetchedNotes <- notes_list userId ;;
        setNotesShown (fun _ => fetchedNotes) ;;
        on_device (Storage.setNotes fetchedNotes))
       (fun err =>
          setNotesError (Some (error_text err "Failed to fetch notes")) ;;
          cachedNotes <- on_device Storage.getNotes ;;
          if (0 <? length cachedNotes)%nat
          then setNotesShown (fun _ => cachedNotes)
          else aret tt))
    (setNotesLoading false).

Definition createNote (data : CreateNoteRequest) : AppM (option Note) :=
  acatch
    (note <- notes_create data userId ;;
     refresh ;;
     aret (Some note))
    (fun err =>
       setNotesError (Some (error_text err "Failed to create note")) ;;
       aret None).

Definition deleteNote (noteId : Z) : AppM bool :=
  acatch
    (notes_delete noteId ;;
     setNotesShown (fun prev => filter (fun n => item_id n <> noteId) prev) ;;
     aret true)
    (fun err =>
       setNotesError (Some (error_text err "Failed to delete note")) ;;
       aret false).

End UseNotes.

(** *** [useSummary] *)

Definition modify_summary_hook (f : UseSummaryState -> UseSummaryState) : AppM unit :=
  amodify (fun a => set_summary_hook (f (summary_hook a)) a).

Definition setSummaries (f : list Summary -> list Summary) : AppM unit :=
  modify_summary_hook (fun h =>
    mkUseSummaryState (f (summaries h)) (currentSummary h) (isGenerating h)
                      (progressMessage h) (summary_error h)).

Definition setCurrentSummary (s : option Summary) : AppM unit :=
  modify_summary_hook (fun h =>
    mkUseSummaryState (summaries h) s (isGenerating h)
                      (progressMessage h) (summary_error h)).

Definition setIsGenerating (b : bool) : AppM unit :=
  modify_summary_hook (fun h =>
    mkUseSummaryState (summaries h) (currentSummary h) b
                      (progressMessage h) (summary_error h)).

Definition setProgressMessage (f : string -> string) : AppM unit :=
  modify_summary_hook (fun h =>
    mkUseSummaryState (summaries h) (currentSummary h) (isGenerating h)
                      (f (progressMessage h)) (summary_error h)).

Definition setSummaryError (e : option string) : AppM unit :=
  modify_summary_hook (fun h =>
    mkUseSummaryState (summaries h) (currentSummary h) (isGenerating h)
                      (progressMessage h) e).

(** The note the hook was called with, when [noteId] is truthy. *)
Definition usable_note_id (noteId : option Z) : option Z :=
  match noteId with
  | Some n => if n =? 0 then None else Some n
  | None => None
  end.

(** What the hook's progress callback does with one event: the message it
    puts on screen. *)
Definition progress_display (shown st message : string) : string :=
  if String.eqb st "pending" then "Waiting in queue..."
  else if String.eqb st "processing"
       then (if truthy_string message then message else "AI is generating summary...")
  else if String.eqb st "completed" then "Summary complete!"
  else shown.

(** The hook's callback as the orchestrator meets it: it sets state and
    returns; it never throws. *)
Definition hook_callback : Callback := fun _ _ _ => None.

(** The progress events a run added to the trace. *)
Definition delivered (before after : World) : list Event :=
  filter is_progress (drop (length (trace before)) (trace after)).

Definition display_all (events : list Event) (shown : string) : string :=
  fold_left
    (fun acc e => match e with
                  | EvProgress st message => progress_display acc st message
                  | _ => acc
                  end)
    events shown.

Section UseSummary.

Variable toISOString : Z -> string.

(** The [noteId] the hook was called with. *)
Variable noteId : option Z.

Definition loadSummaries : AppM unit :=
  match usable_note_id noteId with
  | None => aret tt
  | Some n =>
      acatch
        (fetchedSummaries <- getForNote n ;;
         setSummaries (fun _ => fetchedSummaries) ;;
         match fetchedSummaries with
         | first :: _ => setCurrentSummary (Some first)
         | [] => aret tt
         end)
        (fun err => setSummaryError (Some (error_text err "Failed to fetch summaries")))
  end.

(** [api.summaries.generateWithPolling(noteId, options, callback)]: the
    orchestrator runs on the device; the messages its callback put on screen
    meanwhile are replayed from the progress events of the run. *)
Definition generate_on_device (n : Z) (options : option GenerateSummaryRequest)
  : AppM Summary :=
  fun a =>
    let (r, w') := generateWithPolling toISOString n options (Some hook_callback) (device a) in
    let a' := set_device w' a in
    let h := summary_hook a' in
    (r, set_summary_hook
          (mkUseSummaryState (summaries h) (currentSummary h) (isGenerating h)
             (display_all (delivered (device a) w') (progressMessage h))
             (summary_error h)) a').

Definition generateSummary (options : option GenerateSummaryRequest)
  : AppM (option Summary) :=
  match usable_note_id noteId with
  | None => aret None
  | Some n =>
      setIsGenerating true ;;
      setSummaryError None ;;
      setProgressMessage (fun _ => "Starting summary generation...") ;;
      afinally
        (acatch
           (summary <- generate_on_device n options ;;
            setCurrentSummary (Some summary) ;;
            setSummaries (fun prev => summary :: prev) ;;
            setProgressMessage (fun _ => EmptyString) ;;
            aret (Some summary))
           (fun err =>
              setSummaryError (Some (error_text err "Failed to generate summary")) ;;
              setProgressMessage (fun _ => EmptyString) ;;
              aret None))
        (setIsGenerating false)
  end.

End UseSummary.

End App.

(** ** Vocabulary of the properties *)

Module Spec.

Import Api Storage Hooks.

(** A callback that never throws, or no callback at all. *)
Definition quiet (onProgress : option Callback) : Prop :=
  match onProgress with
  | None => True
  | Some cb => forall past st msg, cb past st msg = None
  end.

(** The events one [onProgress] invocation adds to the trace. *)
Definition emitted (onProgress : option Callback) (st msg : string) : list Event :=
  match onProgress with
  | None => []
  | Some _ => [EvProgress st msg]
  end.

Definition noted (onProgress : option Callback) (st msg : string) (w : World) : World :=
  match onProgress with
  | None => w
  | Some _ => log (EvProgress st msg) w
  end.

(** The world after one poll attempt that received [st] and whose callback
    returned: timer, job-status call, progress event. *)
Definition after_attempt (onProgress : option Callback) (jobId : string)
    (st : AsyncJobResponse) (w : World) : World :=
  noted onProgress (status_string (status st)) (progress_message st)
    (log (EvRequest (GetJobStatus jobId))
       (log (EvTimer pollInterval) (set_clock (clock w + pollInterval) w))).

(** A job-status response on which the loop neither returns nor throws:
    [pending], [processing], or [completed] without a summary. *)
Definition non_terminal (st : AsyncJobResponse) : bool :=
  match status st with
  | pending | processing => true
  | completed => match summary st with None => true | Some _ => false end
  | failed => false
  end.

(** The reply to the [k]-th job-status call counted from [w]. *)
Definition kth_status (w : World) (jobId : string) (k : nat) : Reply AsyncJobResponse :=
  getJobStatus_reply (remote w) (job_status_calls w + k) jobId.

(** The world after [k] poll attempts from [w], as long as the service
    answers them. *)
Fixpoint after_attempts (onProgress : option Callback) (jobId : string)
    (k : nat) (w : World) : World :=
  match k with
  | O => w
  | S k' =>
      match kth_status w jobId 0 with
      | Ok st => after_attempts onProgress jobId k' (after_attempt onProgress jobId st w)
      | Rejected _ => w
      end
  end.

(** The body [generateAsync] posts for given options. *)
Definition submitted (noteId : Z) (options : option GenerateSummaryRequest) : Event :=
  EvRequest (PostGenerateAsync noteId (default empty_request options)).

Definition submit_reply (w : World) (noteId : Z)
    (options : option GenerateSummaryRequest) : Reply AsyncJobResponse :=
  generateAsync_reply (remote w) noteId (default empty_request options).

(** The world once the submission has been answered: first progress event,
    then the request. *)
Definition submitted_world (onProgress : option Callback) (noteId : Z)
    (options : option GenerateSummaryRequest) (w : World) : World :=
  log (submitted noteId options) (noted onProgress "pending" "Starting summary job..." w).

(** The missing-field rule, field by field: what [result] must hold for the
    payload [s] when the model default is [model_default] and the time of
    the return is [now]. *)
Definition follows_missing_field_rule (toISOString : Z -> string)
    (model_default : string) (now : Z) (s : SummaryPayload) (result : Summary) : Prop :=
  (p_ai_provider s = None -> ai_provider result = "unknown") /\
  (p_ai_model s = None -> ai_model result = model_default) /\
  (p_generation_time_ms s = None -> generation_time_ms result = 0) /\
  (p_token_count s = None -> token_count result = 0) /\
  (p_compression_ratio s = None -> compression_ratio result = 0%Q) /\
  (p_created_at s = None -> created_at result = toISOString now) /\
  id result = p_id s /\
  content result = p_content s /\
  summary_type result = p_summary_type s /\
  summary_length result = p_summary_length s.



(** Time passing between two calls. *)
Definition elapse (dt : Z) (w : World) : World := set_clock (clock w + dt) w.

(** No AsyncStorage call is going to reject. *)
Definition healthy (w : World) : Prop := faults w = [].

(** What [storage.get] finds under [key] when the read goes through. *)
Definition stored {T} `{Storable T} (key : string) (w : World) : option T :=
  match disk w !! key with
  | Some text => if truthy_text text then parse text else None
  | None => None
  end.


(** The body [initializeUser] posts to create a guest. *)
Definition guest_body : CreateUserRequest := mkCreateUserRequest None None (Some true).

(** The store once the guest token of [u], if it has one, is saved. *)
Definition token_saved (u : User) (d : gmap string Blob) : gmap string Blob :=
  match guest_id u with
  | Some t => if truthy_string t then <[Constants.GUEST_ID := BlobString t]> d else d
  | None => d
  end.

End Spec.

(** ** Sample services, callbacks and worlds, for the examples *)

Module Samples.

Import Api Spec.

(** Stands in for [toISOString] in the examples: the milliseconds, printed. *)
Definition ms_text (t : Z) : string := int_to_string t.

(** A summary payload with every optional field left out. *)
Definition bare_payload : SummaryPayload :=
  mkSummaryPayload 7 "Three key ideas." "summary" "auto"
    None None None None None None None.

Definition job (jobId : option string) (st : JobStatus) (percent : Q)
    (hit : option bool) (result : option SummaryPayload) (err : option string)
  : AsyncJobResponse :=
  mkAsyncJobResponse jobId st percent hit result err.

Definition queued : AsyncJobResponse := job (Some "job-1") pending 0%Q None None None.

Definition not_found : AxiosError :=
  mkAxiosError (Some 404) (Some "User not found") "Request failed with status code 404".

Definition guest : User := mkUser 1 (Some "g-2") None "Guest" true "2024-01-01T00:00:00".

(** A service that answers the submission with [submit] and the [n]-th
    job-status call with [script n]; it knows no guest token and creates
    [guest] on request. *)
Definition service (submit : AsyncJobResponse) (script : nat -> AsyncJobResponse) : Remote :=
  mkRemote (fun _ _ => Ok submit) (fun n _ => Ok (script n))
           (fun _ => Rejected not_found) (fun _ => Ok guest).

Definition fresh_world (r : Remote) : World :=
  mkWorld 0 ∅ [] r (mkUseUserState None true None) [].

(** pending, processing (30%), processing (70%), completed with a result *)
Definition four_step_script (n : nat) : AsyncJobResponse :=
  match n with
  | 0%nat => job (Some "job-1") pending 0%Q None None None
  | 1%nat => job (Some "job-1") processing 30%Q None None None
  | 2%nat => job (Some "job-1") processing 70%Q None None None
  | _ => job (Some "job-1") completed 100%Q None (Some bare_payload) None
  end.

Definition cached_job : AsyncJobResponse :=
  job None completed 100%Q (Some true) (Some bare_payload) None.

Definition cached_world : World := fresh_world (service cached_job (fun _ => queued)).

Definition four_step_world : World := fresh_world (service queued four_step_script).

Definition stuck_world : World :=
  fresh_world (service queued (fun _ => job (Some "job-1") processing 50%Q None None None)).

Definition hollow_world : World :=
  fresh_world (service queued (fun _ => job (Some "job-1") completed 100%Q None None None)).

Definition failing_world (err : option string) : World :=
  fresh_world (service queued (fun _ => job (Some "job-1") failed 0%Q None None err)).

Definition jobless : AsyncJobResponse := job None pending 0%Q None None None.

Definition jobless_world : World := fresh_world (service jobless (fun _ => queued)).

Definition lecture : NoteListItem :=
  mkNoteListItem 3 "Lecture 4" src_pdf 5120 "2024-02-01T09:00:00" 1 "Entropy is".

(** A device that holds a guest token the service no longer knows. *)
Definition lapsed_world : World :=
  mkWorld 0 {[ Constants.GUEST_ID := BlobString "g-1" ]} []
          (service queued (fun _ => queued)) (mkUseUserState None true None) [].

(** A device that holds a full identity. *)
Definition returning_world : World :=
  mkWorld 0 {[ Constants.USER_DATA := BlobUser guest ]} []
          (service queued (fun _ => queued)) (mkUseUserState None true None) [].

Definition silent : Callback := fun _ _ _ => None.


End Samples.

(** ** Further vocabulary *)

Module Terms.

Import Api Storage Spec.

(** What a run that made [j] job-status calls has changed in the world. *)
Definition polled (j : nat) (w w' : World) : Prop :=
  disk w' = disk w /\ faults w' = faults w /\ hook w' = hook w /\
  remote w' = remote w /\
  job_status_calls w' = (job_status_calls w + j)%nat /\
  clock w' = clock w + Z.of_nat j * 2000.

(** [JSON.parse (JSON.stringify v)] gives [v] back, and the text of a value
    is never empty. *)
Class Lawful (T : Type) `{Storable T} : Prop := {
  parse_stringify : forall v : T, parse (stringify v) = Some v;
  stringify_truthy : forall v : T, truthy_text (stringify v) = true;
}.

(** What makes [storage.get] answer [null] for [key]: the read is rejected,
    nothing is stored, or what is stored does not parse. *)
Definition unreadable (key : string) (w : World) : Prop :=
  (exists rest, faults w = true :: rest) \/
  disk w !! key = None \/
  (exists raw, disk w !! key = Some (BlobGarbage raw)).

(** The notes-cache key holds nothing, or an entry written by [setNotes]:
    a list of notes with its timestamp. *)
Definition cache_is_own (w : World) : Prop :=
  disk w !! Constants.NOTES_CACHE = None \/
  exists c, disk w !! Constants.NOTES_CACHE = Some (BlobNotes c).

(** Time passing on the device between two calls of a hook. *)
Definition app_elapse (dt : Z) (a : App.AppState) : App.AppState :=
  App.set_device (elapse dt (App.device a)) a.

End Terms.

(** ** Further sample services and worlds, for the examples *)

Module MoreSamples.

Import Api Spec Samples.

Definition network_down : AxiosError := mkAxiosError None None "Network Error".

(** A service that cannot be reached. *)
Definition unreachable : Remote :=
  mkRemote (fun _ _ => Rejected network_down) (fun _ _ => Rejected network_down)
           (fun _ => Rejected network_down) (fun _ => Rejected network_down).

Definition unreachable_world : World := fresh_world unreachable.

Definition halfway : AsyncJobResponse := job (Some "job-1") processing 50%Q None None None.

(** A service that accepts the job, answers two polls and then drops the
    connection. *)
Definition dropping : Remote :=
  mkRemote (fun _ _ => Ok queued)
           (fun n _ => if (n <? 2)%nat then Ok halfway else Rejected network_down)
           (fun _ => Rejected not_found) (fun _ => Ok guest).

Definition dropping_world : World := fresh_world dropping.

(** A device whose next AsyncStorage call is rejected. *)
Definition flaky_world : World := set_faults [true] returning_world.

(** A device that holds a guest token the service knows. *)
Definition welcoming_world : World :=
  mkWorld 0 {[ Constants.GUEST_ID := BlobString "g-2" ]} []
          (mkRemote (fun _ _ => Ok queued) (fun _ _ => Ok queued)
                    (fun _ => Ok guest) (fun _ => Ok guest))
          (mkUseUserState None true None) [].

Definition dark_mode : Settings.SettingsPatch :=
  Settings.mkSettingsPatch None None (Some true).

Definition seminar : NoteListItem :=
  mkNoteListItem 4 "Seminar" src_text 900 "2024-02-02T09:00:00" 0 "Rate of".

Definition draft : App.CreateNoteRequest :=
  App.mkCreateNoteRequest "Draft" "Some text" (Some src_text).

Definition saved_draft : App.Note :=
  App.mkNote 9 "Draft" "Some text" src_text None 9 "2024-02-03T09:00:00" None (Some 1) 0.

Definition earlier_summary : Summary :=
  mkSummary 2 5 "An older summary." "summary" "auto" "groq" "llama" 120 40 (1 # 4)
            "2024-01-31T09:00:00".

(** A notes service that lists [lecture] and [seminar] on the first call
    and is out of reach for every later list call; it deletes and creates
    whatever it is asked to. *)
Definition first_list_only : App.Backend :=
  App.mkBackend
    (fun sent _ => match sent with [] => Ok [lecture; seminar] | _ => Rejected network_down end)
    (fun _ _ _ => Ok saved_draft)
    (fun _ _ => Ok tt)
    (fun _ _ => Ok [earlier_summary]).

Definition offline_backend : App.Backend :=
  App.mkBackend (fun _ _ => Rejected network_down) (fun _ _ _ => Rejected network_down)
                (fun _ _ => Rejected network_down) (fun _ _ => Rejected network_down).

Definition blank_app (b : App.Backend) (w : World) : App.AppState :=
  App.mkAppState w b []
    (App.mkUseNotesState [] true None)
    (App.mkUseSummaryState [earlier_summary] (Some earlier_summary) false EmptyString None).

End MoreSamples.

(** ** Properties of the job orchestrator *)

Module Orchestrator.

Import Api Spec.

(** *** Bookkeeping on worlds *)

Lemma job_status_calls_log e w :
  job_status_calls (log e w) =
  (job_status_calls w + (if is_job_status_call e then 1 else 0))%nat.
Proof.
  unfold job_status_calls; simpl. rewrite filter_app, length_app.
  destruct e as [[]| |]; reflexivity.
Qed.

Lemma progress_events_log e w :
  progress_events (log e w) = progress_events w ++ (if is_progress e then [e] else []).
Proof.
  unfold progress_events; simpl. rewrite filter_app.
  destruct e; reflexivity.
Qed.


Lemma trace_noted cb st msg w :
  trace (noted cb st msg w) = trace w ++ emitted cb st msg.
Proof. destruct cb; simpl; [reflexivity | now rewrite app_nil_r]. Qed.

Lemma remote_noted cb st msg w : remote (noted cb st msg w) = remote w.
Proof. now destruct cb. Qed.

Lemma clock_noted cb st msg w : clock (noted cb st msg w) = clock w.
Proof. now destruct cb. Qed.

Lemma job_status_calls_noted cb st msg w :
  job_status_calls (noted cb st msg w) = job_status_calls w.
Proof.
  destruct cb; [| reflexivity].
  unfold noted. rewrite job_status_calls_log. simpl. lia.
Qed.

Lemma remote_after_attempt cb jid st w : remote (after_attempt cb jid st w) = remote w.
Proof. unfold after_attempt. now rewrite remote_noted. Qed.

Lemma clock_after_attempt cb jid st w :
  clock (after_attempt cb jid st w) = clock w + pollInterval.
Proof. unfold after_attempt. now rewrite clock_noted. Qed.

Lemma job_status_calls_after_attempt cb jid st w :
  job_status_calls (after_attempt cb jid st w) = S (job_status_calls w).
Proof.
  unfold after_attempt.
  rewrite job_status_calls_noted, !job_status_calls_log. simpl.
  unfold job_status_calls. simpl. lia.
Qed.

Lemma trace_after_attempt cb jid st w :
  trace (after_attempt cb jid st w) =
  trace w ++ [EvTimer pollInterval; EvRequest (GetJobStatus jid)]
          ++ emitted cb (status_string (status st)) (progress_message st).
Proof.
  unfold after_attempt. rewrite trace_noted. simpl.
  now rewrite <- !app_assoc.
Qed.

Lemma kth_status_after_attempt cb jid st w k :
  kth_status (after_attempt cb jid st w) jid k = kth_status w jid (S k).
Proof.
  unfold kth_status.
  rewrite remote_after_attempt, job_status_calls_after_attempt.
  f_equal. lia.
Qed.

Lemma kth_status_timer ms t w jid k :
  kth_status (log (EvTimer ms) (set_clock t w)) jid k = kth_status w jid k.
Proof.
  unfold kth_status. rewrite job_status_calls_log. simpl.
  unfold job_status_calls. simpl. f_equal. lia.
Qed.

(** *** Single steps *)

Lemma notify_quiet cb st msg w :
  quiet cb -> notify cb st msg w = (Ret tt, noted cb st msg w).
Proof.
  destruct cb as [f|]; simpl; intros Hq; [| reflexivity].
  now rewrite Hq.
Qed.

Lemma generateAsync_ok noteId options w job :
  submit_reply w noteId options = Ok job ->
  generateAsync noteId options w = (Ret job, log (submitted noteId options) w).
Proof.
  unfold submit_reply, generateAsync, call, submitted. now intros ->.
Qed.

Lemma getJobStatus_ok jid w st :
  kth_status w jid 0 = Ok st ->
  getJobStatus jid w = (Ret st, log (EvRequest (GetJobStatus jid)) w).
Proof.
  unfold kth_status, getJobStatus, call. rewrite Nat.add_0_r. now intros ->.
Qed.

Lemma non_terminal_spec st :
  non_terminal st = true <-> completed_summary st = None /\ status st <> failed.
Proof.
  unfold non_terminal, completed_summary.
  destruct (status st), (summary st); split; intros H;
    try (split; [reflexivity | discriminate]); try reflexivity;
    try discriminate; destruct H as [H1 H2]; congruence.
Qed.

Section Attempts.

Variable toISOString : Z -> string.
Variables (noteId : Z) (cb : option Callback) (jid : string).
Hypothesis cb_quiet : quiet cb.

(** One pass through the loop body, when the service answers [st]. *)
Lemma poll_attempt n w st :
  kth_status w jid 0 = Ok st ->
  poll toISOString noteId cb jid (S n) w =
  match completed_summary st with
  | Some s =>
      (Ret (normalize toISOString noteId "unknown" (clock w + pollInterval) s),
       after_attempt cb jid st w)
  | None =>
      match status st with
      | failed =>
          (Throw (Error (str_or (error st) "Summary generation failed")),
           after_attempt cb jid st w)
      | _ => poll toISOString noteId cb jid n (after_attempt cb jid st w)
      end
  end.
Proof.
  intros Hst. simpl. unfold bind at 1. unfold sleep, modify.
  unfold bind at 1.
  rewrite (getJobStatus_ok jid _ st) by (now rewrite kth_status_timer).
  unfold bind at 1. rewrite notify_quiet by exact cb_quiet.
  fold (after_attempt cb jid st w).
  destruct (completed_summary st) as [s|].
  - unfold bind, Date_now, gets, ret.
    now rewrite clock_after_attempt.
  - destruct (status st); reflexivity.
Qed.

Lemma poll_non_terminal n w st :
  kth_status w jid 0 = Ok st ->
  non_terminal st = true ->
  poll toISOString noteId cb jid (S n) w =
  poll toISOString noteId cb jid n (after_attempt cb jid st w).
Proof.
  intros Hst Hnt. rewrite (poll_attempt n w st Hst).
  apply non_terminal_spec in Hnt as [-> Hnf].
  destruct (status st); congruence.
Qed.

(** [k] non-terminal answers in a row consume [k] attempts. *)
Lemma poll_skip k : forall n w,
  (forall i, (i < k)%nat ->
     exists st, kth_status w jid i = Ok st /\ non_terminal st = true) ->
  poll toISOString noteId cb jid (k + n) w =
  poll toISOString noteId cb jid n (after_attempts cb jid k w).
Proof.
  induction k as [|k IH]; intros n w Hall; [reflexivity |].
  destruct (Hall 0%nat) as (st & Hst & Hnt); [lia |].
  change (S k + n)%nat with (S (k + n)).
  rewrite (poll_non_terminal _ w st Hst Hnt).
  simpl after_attempts. rewrite Hst.
  apply IH. intros i Hi.
  rewrite kth_status_after_attempt. apply Hall. lia.
Qed.

Lemma after_attempts_facts k : forall w,
  (forall i, (i < k)%nat -> exists st, kth_status w jid i = Ok st) ->
  let w' := after_attempts cb jid k w in
  remote w' = remote w /\
  job_status_calls w' = (job_status_calls w + k)%nat /\
  clock w' = clock w + Z.of_nat k * pollInterval /\
  (forall i, kth_status w' jid i = kth_status w jid (k + i)).
Proof.
  induction k as [|k IH]; intros w Hall; simpl.
  - repeat split; lia.
  - destruct (Hall 0%nat) as (st & Hst); [lia |]. rewrite Hst.
    destruct (IH (after_attempt cb jid st w)) as (Hr & Hc & Ht & Hk).
    { intros i Hi. rewrite kth_status_after_attempt. apply Hall. lia. }
    rewrite Hr, Hc, Ht, remote_after_attempt,
      job_status_calls_after_attempt, clock_after_attempt.
    repeat split; try lia.
    intros i. rewrite Hk, kth_status_after_attempt. reflexivity.
Qed.

End Attempts.

(** *** The three ways a submission can go *)

Section Submission.

Variable toISOString : Z -> string.
Variables (noteId : Z) (options : option GenerateSummaryRequest).
Variables (cb : option Callback) (w : World) (job : AsyncJobResponse).
Hypothesis cb_quiet : quiet cb.
Hypothesis submit_ok : submit_reply w noteId options = Ok job.

Lemma run_submit :
  generateWithPolling toISOString noteId options cb w =
  match cache_hit job with
  | Some s =>
      (Ret (normalize toISOString noteId "cached" (clock w) s),
       noted cb "completed" "Using cached summary" (submitted_world cb noteId options w))
  | None =>
      match usable_job_id job with
      | None => (Throw (Error "No job ID returned"), submitted_world cb noteId options w)
      | Some jobId =>
          poll toISOString noteId cb jobId maxAttempts (submitted_world cb noteId options w)
      end
  end.
Proof.
  unfold generateWithPolling.
  unfold bind at 1. rewrite notify_quiet by exact cb_quiet.
  unfold bind at 1.
  rewrite (generateAsync_ok _ _ _ job)
    by (unfold submit_reply in *; now rewrite remote_noted).
  fold (submitted_world cb noteId options w).
  destruct (cache_hit job) as [s|].
  - unfold bind at 1. rewrite notify_quiet by exact cb_quiet.
    unfold bind, Date_now, gets, ret.
    rewrite clock_noted. unfold submitted_world. cbn [clock log].
    now rewrite clock_noted.
  - destruct (usable_job_id job); reflexivity.
Qed.

Lemma run_cache_hit s :
  cache_hit job = Some s ->
  generateWithPolling toISOString noteId options cb w =
  (Ret (normalize toISOString noteId "cached" (clock w) s),
   noted cb "completed" "Using cached summary" (submitted_world cb noteId options w)).
Proof. intros H. rewrite run_submit. now rewrite H. Qed.

Lemma run_no_job_id :
  cache_hit job = None ->
  usable_job_id job = None ->
  generateWithPolling toISOString noteId options cb w =
  (Throw (Error "No job ID returned"), submitted_world cb noteId options w).
Proof. intros H1 H2. rewrite run_submit. now rewrite H1, H2. Qed.

Lemma run_polling jobId :
  cache_hit job = None ->
  usable_job_id job = Some jobId ->
  generateWithPolling toISOString noteId options cb w =
  poll toISOString noteId cb jobId maxAttempts (submitted_world cb noteId options w).
Proof. intros H1 H2. rewrite run_submit. now rewrite H1, H2. Qed.

End Submission.

Lemma submitted_world_facts cb noteId options w :
  remote (submitted_world cb noteId options w) = remote w /\
  clock (submitted_world cb noteId options w) = clock w /\
  job_status_calls (submitted_world cb noteId options w) = job_status_calls w /\
  trace (submitted_world cb noteId options w) =
    trace w ++ emitted cb "pending" "Starting summary job..." ++ [submitted noteId options].
Proof.
  unfold submitted_world. cbn [remote clock trace log].
  rewrite remote_noted, clock_noted, job_status_calls_log,
    job_status_calls_noted, trace_noted.
  repeat split; [cbn; lia | now rewrite <- app_assoc].
Qed.

(** *** Cache hit *)

(** C1.  When the submission is answered with [cached = true] and a summary,
    and the callback (if any) returns normally, [generateWithPolling]
    resolves with the payload normalized with model default ["cached"]: the
    run consists of the first progress event, the submission and the
    "Using cached summary" event, so the job-status endpoint is never
    called; and the result's [ai_model] is ["cached"] when the payload has
    none. *)
Theorem cache_hit_short_circuit toISOString noteId options cb w job s :
  quiet cb ->
  submit_reply w noteId options = Ok job ->
  cached job = Some true ->
  summary job = Some s ->
  let r := generateWithPolling toISOString noteId options cb w in
  exists result,
    fst r = Ret result /\
    result = normalize toISOString noteId "cached" (clock w) s /\
    (p_ai_model s = None -> ai_model result = "cached") /\
    trace (snd r) =
      trace w ++ emitted cb "pending" "Starting summary job..."
              ++ [submitted noteId options]
              ++ emitted cb "completed" "Using cached summary" /\
    job_status_calls (snd r) = job_status_calls w.
Proof.
  intros Hq Hsub Hc Hs. cbv zeta.
  rewrite (run_cache_hit toISOString noteId options cb w job Hq Hsub s)
    by (unfold cache_hit; now rewrite Hc).
  cbn [fst snd]. eexists. split; [reflexivity |].
  split; [reflexivity |]. split.
  - intros Hm. unfold normalize. cbn [ai_model]. now rewrite Hm.
  - unfold submitted_world.
    rewrite job_status_calls_noted, job_status_calls_log, job_status_calls_noted.
    rewrite trace_noted. cbn [trace log]. rewrite trace_noted.
    split; [now rewrite <- !app_assoc | cbn; lia].
Qed.

Lemma cache_hit_short_circuit_witness :
  let r := generateWithPolling Samples.ms_text 5 None (Some Samples.silent)
             Samples.cached_world in
  exists result,
    fst r = Ret result /\
    result = normalize Samples.ms_text 5 "cached" 0 Samples.bare_payload /\
    (p_ai_model Samples.bare_payload = None -> ai_model result = "cached") /\
    trace (snd r) =
      [] ++ [EvProgress "pending" "Starting summary job..."]
         ++ [submitted 5 None]
         ++ [EvProgress "completed" "Using cached summary"] /\
    job_status_calls (snd r) = 0%nat.
Proof.
  apply (cache_hit_short_circuit Samples.ms_text 5 None (Some Samples.silent)
           Samples.cached_world Samples.cached_job Samples.bare_payload).
  - intros past st msg. reflexivity.
  - reflexivity.
  - reflexivity.
  - reflexivity.
Defined.

(** *** Protocol violation *)

(** C6.  When the submission's response is not a cache hit and carries no
    job id, and the callback (if any) returns normally,
    [generateWithPolling] fails with "No job ID returned"; the run is the
    first progress event and the submission only: no timer, no job-status
    call, no second submission. *)
Theorem no_job_id_is_fatal toISOString noteId options cb w job :
  quiet cb ->
  submit_reply w noteId options = Ok job ->
  cache_hit job = None ->
  job_id job = None ->
  let r := generateWithPolling toISOString noteId options cb w in
  fst r = Throw (Error "No job ID returned") /\
  trace (snd r) =
    trace w ++ emitted cb "pending" "Starting summary job..."
            ++ [submitted noteId options] /\
  job_status_calls (snd r) = job_status_calls w.
Proof.
  intros Hq Hsub Hmiss Hid. cbv zeta.
  rewrite (run_no_job_id toISOString noteId options cb w job Hq Hsub Hmiss)
    by (unfold usable_job_id; now rewrite Hid).
  cbn [fst snd].
  destruct (submitted_world_facts cb noteId options w) as (_ & _ & Hc & Ht).
  now rewrite Hc, Ht.
Qed.

Lemma no_job_id_is_fatal_witness :
  let r := generateWithPolling Samples.ms_text 5 None (Some Samples.silent)
             Samples.jobless_world in
  fst r = Throw (Error "No job ID returned") /\
  trace (snd r) =
    [] ++ [EvProgress "pending" "Starting summary job..."] ++ [submitted 5 None] /\
  job_status_calls (snd r) = 0%nat.
Proof.
  apply (no_job_id_is_fatal Samples.ms_text 5 None (Some Samples.silent)
           Samples.jobless_world Samples.jobless).
  - intros past st msg. reflexivity.
  - reflexivity.
  - reflexivity.
  - reflexivity.
Defined.

(** *** Timeout *)

Lemma kth_status_submitted cb noteId options w jid k :
  kth_status (submitted_world cb noteId options w) jid k = kth_status w jid k.
Proof.
  destruct (submitted_world_facts cb noteId options w) as (Hr & _ & Hc & _).
  unfold kth_status. now rewrite Hr, Hc.
Qed.

(** A job that stays non-terminal for all [maxAttempts] attempts. *)
Lemma run_exhausts_attempts toISOString noteId options cb w job jid :
  quiet cb ->
  submit_reply w noteId options = Ok job ->
  cache_hit job = None ->
  usable_job_id job = Some jid ->
  (forall k, (k < maxAttempts)%nat ->
     exists st, kth_status w jid k = Ok st /\ non_terminal st = true) ->
  generateWithPolling toISOString noteId options cb w =
  (Throw (Error "Summary generation timed out"),
   after_attempts cb jid maxAttempts (submitted_world cb noteId options w)).
Proof.
  intros Hq Hsub Hmiss Hid Hall.
  rewrite (run_polling toISOString noteId options cb w job Hq Hsub jid Hmiss Hid).
  rewrite <- (Nat.add_0_r maxAttempts) at 1.
  rewrite poll_skip; [reflexivity | exact Hq |].
  intros i Hi. rewrite kth_status_submitted. now apply Hall.
Qed.

Lemma calls_after_attempts cb noteId options w jid k :
  (forall i, (i < k)%nat -> exists st, kth_status w jid i = Ok st) ->
  job_status_calls (after_attempts cb jid k (submitted_world cb noteId options w)) =
  (job_status_calls w + k)%nat.
Proof.
  intros Hall.
  destruct (after_attempts_facts cb jid k (submitted_world cb noteId options w))
    as (_ & Hc & _).
  { intros i Hi. rewrite kth_status_submitted. now apply Hall. }
  rewrite Hc.
  destruct (submitted_world_facts cb noteId options w) as (_ & _ & Hc' & _).
  now rewrite Hc'.
Qed.

(** C3.  When the job-status responses of the first 180 polls are all
    non-terminal (pending, processing, or completed without a summary),
    [generateWithPolling] terminates with the failure "Summary generation
    timed out", having called the job-status endpoint exactly 180 times. *)
Theorem polling_times_out toISOString noteId options cb w job jid :
  quiet cb ->
  submit_reply w noteId options = Ok job ->
  cache_hit job = None ->
  usable_job_id job = Some jid ->
  (forall k, (k < 180)%nat ->
     exists st, kth_status w jid k = Ok st /\ non_terminal st = true) ->
  let r := generateWithPolling toISOString noteId options cb w in
  fst r = Throw (Error "Summary generation timed out") /\
  job_status_calls (snd r) = (job_status_calls w + 180)%nat.
Proof.
  intros Hq Hsub Hmiss Hid Hall. cbv zeta.
  rewrite (run_exhausts_attempts toISOString noteId options cb w job jid)
    by assumption.
  cbn [fst snd]. split; [reflexivity |].
  apply calls_after_attempts.
  intros i Hi. destruct (Hall i Hi) as (st & Hst & _). eauto.
Qed.

Lemma polling_times_out_witness :
  let r := generateWithPolling Samples.ms_text 5 None None Samples.stuck_world in
  fst r = Throw (Error "Summary generation timed out") /\
  job_status_calls (snd r) = (0 + 180)%nat.
Proof.
  apply (polling_times_out Samples.ms_text 5 None None Samples.stuck_world
           Samples.queued "job-1").
  - exact I.
  - reflexivity.
  - reflexivity.
  - reflexivity.
  - intros k _. eexists. split; reflexivity.
Defined.

(** *** Completed without a summary *)

(** C10.  A job-status response with status [completed] and no summary is
    not terminal: the attempt that receives it neither returns nor throws,
    and the loop goes on with one attempt fewer.  So a job whose responses
    are all of this kind ends in "Summary generation timed out" after the
    180 polls, not in a protocol error. *)
Theorem completed_without_summary_keeps_polling toISOString noteId options cb w job jid :
  quiet cb ->
  submit_reply w noteId options = Ok job ->
  cache_hit job = None ->
  usable_job_id job = Some jid ->
  (forall k, (k < 180)%nat ->
     exists st, kth_status w jid k = Ok st /\
                status st = completed /\ summary st = None) ->
  let r := generateWithPolling toISOString noteId options cb w in
  (forall n w' st,
     kth_status w' jid 0 = Ok st -> status st = completed -> summary st = None ->
     poll toISOString noteId cb jid (S n) w' =
     poll toISOString noteId cb jid n (after_attempt cb jid st w')) /\
  fst r = Throw (Error "Summary generation timed out") /\
  job_status_calls (snd r) = (job_status_calls w + 180)%nat.
Proof.
  intros Hq Hsub Hmiss Hid Hall. cbv zeta.
  assert (Hnt : forall st, status st = completed -> summary st = None ->
                           non_terminal st = true).
  { intros st H1 H2. unfold non_terminal. now rewrite H1, H2. }
  split.
  - intros n w' st Hst H1 H2. apply poll_non_terminal; auto.
  - rewrite (run_exhausts_attempts toISOString noteId options cb w job jid);
      try assumption.
    + cbn [fst snd]. split; [reflexivity |].
      apply calls_after_attempts.
      intros i Hi. destruct (Hall i Hi) as (st & Hst & _). eauto.
    + intros k Hk. destruct (Hall k Hk) as (st & Hst & H1 & H2). eauto.
Qed.

Lemma completed_without_summary_keeps_polling_witness :
  let r := generateWithPolling Samples.ms_text 5 None None Samples.hollow_world in
  fst r = Throw (Error "Summary generation timed out") /\
  job_status_calls (snd r) = (0 + 180)%nat.
Proof.
  apply (completed_without_summary_keeps_polling Samples.ms_text 5 None None
           Samples.hollow_world Samples.queued "job-1").
  - exact I.
  - reflexivity.
  - reflexivity.
  - reflexivity.
  - intros k _. eexists. repeat split; reflexivity.
Defined.

(** *** Failure reported by the service *)

(** C4.  When a poll (the [k]-th, after [k] non-terminal ones) is answered
    with status [failed], [generateWithPolling] fails on that attempt, with
    no further job-status call; the failure message is the response's
    [error] when it has one (a non-empty one) and "Summary generation
    failed" when [error] is absent. *)
Theorem failed_status_fails_at_once toISOString noteId options cb w job jid k st :
  quiet cb ->
  submit_reply w noteId options = Ok job ->
  cache_hit job = None ->
  usable_job_id job = Some jid ->
  (k < 180)%nat ->
  (forall i, (i < k)%nat ->
     exists st', kth_status w jid i = Ok st' /\ non_terminal st' = true) ->
  kth_status w jid k = Ok st ->
  status st = failed ->
  let r := generateWithPolling toISOString noteId options cb w in
  fst r = Throw (Error (str_or (error st) "Summary generation failed")) /\
  job_status_calls (snd r) = (job_status_calls w + k + 1)%nat /\
  (forall m, error st = Some m -> m <> EmptyString -> fst r = Throw (Error m)) /\
  (error st = None -> fst r = Throw (Error "Summary generation failed")).
Proof.
  intros Hq Hsub Hmiss Hid Hk Hall Hst Hfail. cbv zeta.
  rewrite (run_polling toISOString noteId options cb w job Hq Hsub jid Hmiss Hid).
  set (w0 := submitted_world cb noteId options w).
  assert (Hall0 : forall i, (i < k)%nat ->
            exists st', kth_status w0 jid i = Ok st' /\ non_terminal st' = true).
  { intros i Hi. unfold w0. rewrite kth_status_submitted. now apply Hall. }
  replace maxAttempts with (k + S (179 - k))%nat by (unfold maxAttempts; lia).
  rewrite poll_skip by assumption.
  destruct (after_attempts_facts cb jid k w0) as (_ & Hc & _ & Hk0).
  { intros i Hi. destruct (Hall0 i Hi) as (st' & H' & _). eauto. }
  assert (Hst0 : kth_status (after_attempts cb jid k w0) jid 0 = Ok st).
  { rewrite Hk0, Nat.add_0_r. unfold w0. now rewrite kth_status_submitted. }
  rewrite (poll_attempt toISOString noteId cb jid Hq _ _ st Hst0).
  unfold completed_summary. rewrite Hfail. cbn [fst snd].
  split; [reflexivity |]. split.
  - rewrite job_status_calls_after_attempt, Hc. unfold w0.
    destruct (submitted_world_facts cb noteId options w) as (_ & _ & Hc' & _).
    rewrite Hc'. lia.
  - split.
    + intros m Hm Hne. rewrite Hm. destruct m; [congruence | reflexivity].
    + intros Hm. now rewrite Hm.
Qed.

Lemma failed_status_fails_at_once_witness :
  let r := generateWithPolling Samples.ms_text 5 None None
             (Samples.failing_world (Some "boom")) in
  fst r = Throw (Error "boom") /\
  job_status_calls (snd r) = 1%nat.
Proof.
  pose proof (failed_status_fails_at_once Samples.ms_text 5 None None
                (Samples.failing_world (Some "boom")) Samples.queued "job-1" 0%nat
                (Samples.job (Some "job-1") failed 0%Q None None (Some "boom")))
    as H.
  destruct H as (H1 & H2 & _).
  - exact I.
  - reflexivity.
  - reflexivity.
  - reflexivity.
  - lia.
  - intros i Hi. lia.
  - reflexivity.
  - reflexivity.
  - split; [exact H1 | exact H2].
Defined.

(** *** A run that completes after four polls *)

Lemma normalize_follows_rule toISOString noteId model_default now s :
  follows_missing_field_rule toISOString model_default now s
    (normalize toISOString noteId model_default now s).
Proof.
  unfold follows_missing_field_rule, normalize. cbn.
  repeat split; intros ->; reflexivity.
Qed.

Lemma progress_events_noted cb st msg w :
  progress_events (noted cb st msg w) = progress_events w ++ emitted cb st msg.
Proof.
  destruct cb; cbn [noted emitted]; [| now rewrite app_nil_r].
  now rewrite progress_events_log.
Qed.

Lemma progress_events_after_attempt cb jid st w :
  progress_events (after_attempt cb jid st w) =
  progress_events w ++ emitted cb (status_string (status st)) (progress_message st).
Proof.
  unfold after_attempt. rewrite progress_events_noted, !progress_events_log.
  cbn [is_progress]. rewrite !app_nil_r. reflexivity.
Qed.

Lemma progress_events_submitted cb noteId options w :
  progress_events (submitted_world cb noteId options w) =
  progress_events w ++ emitted cb "pending" "Starting summary job...".
Proof.
  unfold submitted_world. rewrite progress_events_log, progress_events_noted.
  cbn. now rewrite app_nil_r.
Qed.

Lemma processing_message st p :
  status st = processing -> (progress st == inject_Z p)%Q ->
  progress_message st = "Processing... (" +:+ int_to_string p +:+ "%)".
Proof.
  intros Hs Hp. unfold progress_message. rewrite Hs.
  unfold Math_round. rewrite Hp.
  replace (Qfloor (inject_Z p + (1 # 2))) with p; [reflexivity |].
  unfold Qfloor, inject_Z, Qplus. cbn.
  apply Z.div_unique with (r := 1); cbn; lia.
Qed.

(** C2, as the code has it.  For a non-cached submission whose job-status
    responses are pending, processing (30%), processing (70%) and completed
    with a summary, and a callback that returns normally,
    [generateWithPolling] invokes the callback five times: once before
    the submission ("Starting summary job...") and once after each
    job-status response, in the order of the responses; the whole run is
    that first event, the submission, and four times a timer, a job-status
    call and its progress event.  It resolves, after four job-status calls, with the
    final payload normalized by the missing-field rule (provider and model
    "unknown", metrics 0, timestamp the time of the return). *)
Theorem four_step_run toISOString noteId options f w job jid st0 st1 st2 st3 s :
  quiet (Some f) ->
  submit_reply w noteId options = Ok job ->
  cache_hit job = None ->
  usable_job_id job = Some jid ->
  kth_status w jid 0 = Ok st0 -> status st0 = pending ->
  kth_status w jid 1 = Ok st1 -> status st1 = processing -> (progress st1 == 30)%Q ->
  kth_status w jid 2 = Ok st2 -> status st2 = processing -> (progress st2 == 70)%Q ->
  kth_status w jid 3 = Ok st3 -> status st3 = completed -> summary st3 = Some s ->
  let r := generateWithPolling toISOString noteId options (Some f) w in
  let now := clock w + 4 * pollInterval in
  trace (snd r) =
    trace w ++
    [EvProgress "pending" "Starting summary job...";
     submitted noteId options;
     EvTimer 2000; EvRequest (GetJobStatus jid);
     EvProgress "pending" "pending";
     EvTimer 2000; EvRequest (GetJobStatus jid);
     EvProgress "processing" "Processing... (30%)";
     EvTimer 2000; EvRequest (GetJobStatus jid);
     EvProgress "processing" "Processing... (70%)";
     EvTimer 2000; EvRequest (GetJobStatus jid);
     EvProgress "completed" "completed"] /\
  progress_events (snd r) =
    progress_events w ++
    [EvProgress "pending" "Starting summary job...";
     EvProgress "pending" "pending";
     EvProgress "processing" "Processing... (30%)";
     EvProgress "processing" "Processing... (70%)";
     EvProgress "completed" "completed"] /\
  job_status_calls (snd r) = (job_status_calls w + 4)%nat /\
  exists result,
    fst r = Ret result /\
    result = normalize toISOString noteId "unknown" now s /\
    follows_missing_field_rule toISOString "unknown" now s result.
Proof.
  intros Hq Hsub Hmiss Hid H0 S0 H1 S1 P1 H2 S2 P2 H3 S3 R3. cbv zeta.
  rewrite (run_polling toISOString noteId options (Some f) w job Hq Hsub jid Hmiss Hid).
  set (cb := Some f) in *.
  set (w0 := submitted_world cb noteId options w).
  set (w1 := after_attempt cb jid st0 w0).
  set (w2 := after_attempt cb jid st1 w1).
  set (w3 := after_attempt cb jid st2 w2).
  assert (K0 : kth_status w0 jid 0 = Ok st0).
  { unfold w0. now rewrite kth_status_submitted. }
  assert (K1 : kth_status w1 jid 0 = Ok st1).
  { unfold w1. rewrite kth_status_after_attempt. unfold w0.
    now rewrite kth_status_submitted. }
  assert (K2 : kth_status w2 jid 0 = Ok st2).
  { unfold w2, w1. rewrite !kth_status_after_attempt. unfold w0.
    now rewrite kth_status_submitted. }
  assert (K3 : kth_status w3 jid 0 = Ok st3).
  { unfold w3, w2, w1. rewrite !kth_status_after_attempt. unfold w0.
    now rewrite kth_status_submitted. }
  change maxAttempts with (S (S (S (S 176)))).
  rewrite (poll_non_terminal toISOString noteId cb jid Hq _ w0 st0 K0)
    by (unfold non_terminal; now rewrite S0).
  rewrite (poll_non_terminal toISOString noteId cb jid Hq _ w1 st1 K1)
    by (unfold non_terminal; now rewrite S1).
  rewrite (poll_non_terminal toISOString noteId cb jid Hq _ w2 st2 K2)
    by (unfold non_terminal; now rewrite S2).
  rewrite (poll_attempt toISOString noteId cb jid Hq _ w3 st3 K3).
  unfold completed_summary. rewrite S3, R3. cbn [fst snd].
  assert (Hclock : clock w3 + pollInterval = clock w + 4 * pollInterval).
  { unfold w3, w2, w1. rewrite !clock_after_attempt. unfold w0.
    destruct (submitted_world_facts cb noteId options w) as (_ & -> & _). lia. }
  split; [| split; [| split]].
  - rewrite trace_after_attempt. fold w3. unfold w3.
    rewrite trace_after_attempt. fold w2. unfold w2.
    rewrite trace_after_attempt. fold w1. unfold w1.
    rewrite trace_after_attempt. unfold w0.
    destruct (submitted_world_facts cb noteId options w) as (_ & _ & _ & ->).
    rewrite (processing_message st1 30 S1 P1), (processing_message st2 70 S2 P2).
    unfold progress_message. rewrite S0, S1, S2, S3.
    unfold cb. cbn [emitted status_string].
    rewrite <- !app_assoc. reflexivity.
  - rewrite progress_events_after_attempt. fold w3. unfold w3.
    rewrite progress_events_after_attempt. fold w2. unfold w2.
    rewrite progress_events_after_attempt. fold w1. unfold w1.
    rewrite progress_events_after_attempt. unfold w0.
    rewrite progress_events_submitted.
    rewrite (processing_message st1 30 S1 P1), (processing_message st2 70 S2 P2).
    unfold progress_message. rewrite S0, S1, S2, S3.
    rewrite <- !app_assoc. reflexivity.
  - rewrite job_status_calls_after_attempt. fold w3. unfold w3.
    rewrite job_status_calls_after_attempt. fold w2. unfold w2.
    rewrite job_status_calls_after_attempt. fold w1. unfold w1.
    rewrite job_status_calls_after_attempt. unfold w0.
    destruct (submitted_world_facts cb noteId options w) as (_ & _ & -> & _). lia.
  - eexists. split; [reflexivity |]. rewrite Hclock.
    split; [reflexivity | apply normalize_follows_rule].
Qed.

Lemma four_step_run_witness :
  let r := generateWithPolling Samples.ms_text 5 None (Some Samples.silent)
             Samples.four_step_world in
  trace (snd r) =
    [] ++
    [EvProgress "pending" "Starting summary job...";
     submitted 5 None;
     EvTimer 2000; EvRequest (GetJobStatus "job-1");
     EvProgress "pending" "pending";
     EvTimer 2000; EvRequest (GetJobStatus "job-1");
     EvProgress "processing" "Processing... (30%)";
     EvTimer 2000; EvRequest (GetJobStatus "job-1");
     EvProgress "processing" "Processing... (70%)";
     EvTimer 2000; EvRequest (GetJobStatus "job-1");
     EvProgress "completed" "completed"] /\
  progress_events (snd r) =
    [] ++
    [EvProgress "pending" "Starting summary job...";
     EvProgress "pending" "pending";
     EvProgress "processing" "Processing... (30%)";
     EvProgress "processing" "Processing... (70%)";
     EvProgress "completed" "completed"] /\
  job_status_calls (snd r) = (0 + 4)%nat /\
  exists result,
    fst r = Ret result /\
    result = normalize Samples.ms_text 5 "unknown" (0 + 4 * pollInterval) Samples.bare_payload /\
    follows_missing_field_rule Samples.ms_text "unknown" (0 + 4 * pollInterval)
      Samples.bare_payload result.
Proof.
  apply (four_step_run Samples.ms_text 5 None Samples.silent Samples.four_step_world
           Samples.queued "job-1"
           (Samples.four_step_script 0) (Samples.four_step_script 1)
           (Samples.four_step_script 2) (Samples.four_step_script 3)
           Samples.bare_payload).
  - intros past st msg. reflexivity.
  - reflexivity.
  - reflexivity.
  - reflexivity.
  - reflexivity.
  - reflexivity.
  - reflexivity.
  - reflexivity.
  - reflexivity.
  - reflexivity.
  - reflexivity.
  - reflexivity.
  - reflexivity.
  - reflexivity.
  - reflexivity.
Defined.

(** C2, as the specification words it, fails: the callback is not invoked
    "exactly 4 times".  On the sample service that answers pending,
    processing (30%), processing (70%), completed, the run delivers five
    progress events; the first one precedes the submission. *)
Lemma four_progress_events_refuted :
  ~ (forall toISOString noteId options f w job jid st0 st1 st2 st3 s,
       quiet (Some f) ->
       submit_reply w noteId options = Ok job ->
       cache_hit job = None ->
       usable_job_id job = Some jid ->
       kth_status w jid 0 = Ok st0 -> status st0 = pending ->
       kth_status w jid 1 = Ok st1 -> status st1 = processing -> (progress st1 == 30)%Q ->
       kth_status w jid 2 = Ok st2 -> status st2 = processing -> (progress st2 == 70)%Q ->
       kth_status w jid 3 = Ok st3 -> status st3 = completed -> summary st3 = Some s ->
       let r := generateWithPolling toISOString noteId options (Some f) w in
       length (progress_events (snd r)) = (length (progress_events w) + 4)%nat).
Proof.
  intros claim.
  specialize (claim Samples.ms_text 5 None Samples.silent Samples.four_step_world
                Samples.queued "job-1"
                (Samples.four_step_script 0) (Samples.four_step_script 1)
                (Samples.four_step_script 2) (Samples.four_step_script 3)
                Samples.bare_payload).
  assert (Hq : quiet (Some Samples.silent)) by (intros past st msg; reflexivity).
  specialize (claim Hq eq_refl eq_refl eq_refl eq_refl eq_refl eq_refl eq_refl
                (Qeq_refl _) eq_refl eq_refl (Qeq_refl _) eq_refl eq_refl eq_refl).
  vm_compute in claim. discriminate claim.
Qed.

(** *** The progress callback *)






(** The loop body for any callback, whatever the service answers. *)
Lemma poll_unfold toISOString noteId cb jid n w :
  poll toISOString noteId cb jid (S n) w =
  let w' := log (EvTimer pollInterval) (set_clock (clock w + pollInterval) w) in
  match kth_status w jid 0 with
  | Rejected err =>
      (Throw (intercept_error err), log (EvRequest (GetJobStatus jid)) w')
  | Ok st =>
      match notify cb (status_string (status st)) (progress_message st)
                   (log (EvRequest (GetJobStatus jid)) w') with
      | (Ret _, w'') =>
          match completed_summary st with
          | Some s => (Ret (normalize toISOString noteId "unknown" (clock w'') s), w'')
          | None =>
              match status st with
              | failed =>
                  (Throw (Error (str_or (error st) "Summary generation failed")), w'')
              | _ => poll toISOString noteId cb jid n w''
              end
          end
      | (Throw e, w'') => (Throw e, w'')
      end
  end.
Proof.
  cbn [poll]. unfold bind at 1. unfold sleep, modify.
  unfold bind at 1. unfold getJobStatus, call.
  rewrite <- (kth_status_timer pollInterval (clock w + pollInterval) w jid 0).
  unfold kth_status at 1. rewrite Nat.add_0_r. cbv zeta.
  destruct (getJobStatus_reply _ _ jid) as [st | err]; [| reflexivity].
  unfold bind at 1.
  destruct (notify cb _ _ _) as [[[] | e] w'']; [| reflexivity].
  destruct (completed_summary st); [reflexivity |].
  destruct (status st); reflexivity.
Qed.



(** The whole function for any callback, whatever the service answers. *)
Lemma run_unfold toISOString noteId options cb w :
  generateWithPolling toISOString noteId options cb w =
  match notify cb "pending" "Starting summary job..." w with
  | (Throw e, w1) => (Throw e, w1)
  | (Ret _, w1) =>
      let w2 := log (submitted noteId options) w1 in
      match submit_reply w1 noteId options with
      | Rejected err => (Throw (intercept_error err), w2)
      | Ok job =>
          match cache_hit job with
          | Some s =>
              match notify cb "completed" "Using cached summary" w2 with
              | (Ret _, w3) =>
                  (Ret (normalize toISOString noteId "cached" (clock w3) s), w3)
              | (Throw e, w3) => (Throw e, w3)
              end
          | None =>
              match usable_job_id job with
              | Some jobId => poll toISOString noteId cb jobId maxAttempts w2
              | None => (Throw (Error "No job ID returned"), w2)
              end
          end
      end
  end.
Proof.
  unfold generateWithPolling. unfold bind at 1.
  destruct (notify cb "pending" "Starting summary job..." w) as [[[] | e] w1];
    [| reflexivity].
  unfold bind at 1. unfold generateAsync, call, submit_reply, submitted. cbv zeta.
  destruct (generateAsync_reply (remote w1) noteId (default empty_request options))
    as [job | err]; [| reflexivity].
  destruct (cache_hit job) as [s |].
  - unfold bind at 1.
    destruct (notify cb "completed" "Using cached summary" _) as [[[] | e] w3];
      reflexivity.
  - destruct (usable_job_id job); reflexivity.
Qed.





End Orchestrator.

(** ** Properties of the storage wrappers *)

Module Cache.

Import Storage Spec.

Lemma storage_get_healthy {T} `{Storable T} key w :
  healthy w -> storage_get key w = (Ret (stored key w), w).
Proof.
  intros Hh. unfold storage_get, try_catch, bind, AsyncStorage_getItem,
    AsyncStorage_call, next_fault, stored, JSON_parse.
  rewrite Hh.
  destruct (disk w !! key) as [text |]; [| reflexivity].
  destruct (truthy_text text); [| reflexivity].
  destruct (parse text); reflexivity.
Qed.

Lemma storage_set_healthy {T} `{Storable T} key (v : T) w :
  healthy w ->
  storage_set key v w = (Ret tt, set_disk (<[key := stringify v]> (disk w)) w).
Proof.
  intros Hh. unfold storage_set, try_catch, AsyncStorage_setItem,
    AsyncStorage_call, next_fault.
  now rewrite Hh.
Qed.

(** [storage.get] returns whatever the store does and holds. *)
Lemma storage_get_total {T} `{Storable T} key w :
  exists v w', storage_get key w = (Ret v, w').
Proof.
  unfold storage_get, try_catch, bind, AsyncStorage_getItem,
    AsyncStorage_call, next_fault, JSON_parse.
  destruct (faults w) as [| [] rest]; cbn.
  - destruct (disk w !! key) as [text |]; [| eauto].
    destruct (truthy_text text); [| eauto].
    destruct (parse text); eauto.
  - eauto.
  - destruct (disk w !! key) as [text |]; [| eauto].
    destruct (truthy_text text); [| eauto].
    destruct (parse text); eauto.
Qed.

Lemma getNotes_total w : exists l w', getNotes w = (Ret l, w').
Proof.
  unfold getNotes, bind at 1.
  destruct (storage_get_total (T := CachedNotes) Constants.NOTES_CACHE w)
    as (v & w' & ->).
  unfold bind, Date_now, gets, ret.
  destruct v as [c |]; [| eauto].
  destruct (clock w' - timestamp c <? freshnessWindow); eauto.
Qed.

Lemma setNotes_healthy items w :
  healthy w ->
  setNotes items w =
  (Ret tt,
   set_disk (<[Constants.NOTES_CACHE := BlobNotes (mkCachedNotes items (clock w))]> (disk w)) w).
Proof.
  intros Hh. unfold setNotes, bind, Date_now, gets.
  now rewrite storage_set_healthy.
Qed.

(** C9.  With a store that accepts the write and the read: [getNotes],
    called [dt] milliseconds after [setNotes items], returns [items] when
    [dt] is less than five minutes and the empty list when five minutes or
    more have passed.  And [getNotes] never throws, whatever the store
    holds or does. *)
Theorem notes_cache_freshness items w dt :
  healthy w ->
  let written := snd (setNotes items w) in
  let r := getNotes (elapse dt written) in
  (dt < 5 * 60 * 1000 -> fst r = Ret items) /\
  (5 * 60 * 1000 <= dt -> fst r = Ret []) /\
  (forall w', exists l, fst (getNotes w') = Ret l).
Proof.
  intros Hh. cbv zeta. rewrite (setNotes_healthy items w Hh). cbn [snd].
  set (c := mkCachedNotes items (clock w)).
  set (w1 := elapse dt (set_disk (<[Constants.NOTES_CACHE := BlobNotes c]> (disk w)) w)).
  assert (Hget : getNotes w1 =
                 (if dt <? freshnessWindow then Ret items else Ret [], w1)).
  { unfold getNotes, bind at 1.
    rewrite storage_get_healthy by exact Hh.
    unfold stored. cbn [disk w1 elapse set_clock set_disk].
    rewrite lookup_insert_eq. cbn [truthy_text parse Storable_CachedNotes].
    unfold bind, Date_now, gets, ret. cbn [timestamp notes c].
    replace (clock w1 - clock w) with dt
      by (unfold w1, elapse; cbn [clock set_clock set_disk]; lia).
    destruct (dt <? freshnessWindow); reflexivity. }
  rewrite Hget. cbn [fst]. unfold freshnessWindow.
  split; [| split].
  - intros Hlt. apply Z.ltb_lt in Hlt. now rewrite Hlt.
  - intros Hge. apply Z.ltb_ge in Hge. now rewrite Hge.
  - intros w'. destruct (getNotes_total w') as (l & w'' & ->). eauto.
Qed.

Lemma notes_cache_freshness_witness :
  fst (Storage.getNotes
         (elapse 299999
            (snd (Storage.setNotes [Samples.lecture] Samples.cached_world)))) =
    Ret [Samples.lecture] /\
  fst (Storage.getNotes
         (elapse 300000
            (snd (Storage.setNotes [Samples.lecture] Samples.cached_world)))) =
    Ret [].
Proof.
  split.
  - apply (notes_cache_freshness [Samples.lecture] Samples.cached_world 299999);
      [reflexivity | lia].
  - apply (notes_cache_freshness [Samples.lecture] Samples.cached_world 300000);
      [reflexivity | lia].
Defined.

End Cache.

(** ** Properties of the identity bootstrap *)

Module Bootstrap.

Import Storage Hooks Spec.

Lemma stored_user_iff w u :
  stored Constants.USER_DATA w = Some u <->
  disk w !! Constants.USER_DATA = Some (BlobUser u).
Proof.
  unfold stored. split.
  - destruct (disk w !! Constants.USER_DATA) as [[] |]; cbn; try discriminate.
    + now intros [= ->].
    + destruct (truthy_string raw); discriminate.
  - now intros ->.
Qed.

Lemma lookup_by_guest_id_healthy guestId w :
  healthy w ->
  lookup_by_guest_id guestId w =
  match guestId with
  | Some g =>
      if truthy_string g then
        match getByGuestId_reply (remote w) g with
        | Ok existing =>
            (Ret true,
             set_hook (mkUseUserState (Some existing) false (hook_error (hook w)))
               (set_disk (<[Constants.USER_DATA := BlobUser existing]> (disk w))
                  (log (EvRequest (GetUserByGuestId g)) w)))
        | Rejected _ => (Ret false, log (EvRequest (GetUserByGuestId g)) w)
        end
      else (Ret false, w)
  | None => (Ret false, w)
  end.
Proof.
  intros Hh. unfold lookup_by_guest_id.
  destruct guestId as [g |]; [| reflexivity].
  destruct (truthy_string g); [| reflexivity].
  unfold try_catch, bind at 1. unfold Api.users_getByGuestId, Api.call.
  destruct (getByGuestId_reply (remote w) g) as [existing | err]; [| reflexivity].
  unfold bind at 1. unfold setUser. rewrite Cache.storage_set_healthy by exact Hh.
  reflexivity.
Qed.

Lemma create_guest_healthy w :
  healthy w ->
  create_guest w =
  match users_create_reply (remote w) guest_body with
  | Ok newUser =>
      (Ret tt,
       set_hook (mkUseUserState (Some newUser) (isLoading (hook w)) (hook_error (hook w)))
         (set_disk (<[Constants.USER_DATA := BlobUser newUser]> (token_saved newUser (disk w)))
            (log (EvRequest (PostUsers guest_body)) w)))
  | Rejected err =>
      (Throw (Api.intercept_error err), log (EvRequest (PostUsers guest_body)) w)
  end.
Proof.
  intros Hh. unfold create_guest.
  unfold bind at 1. unfold Api.users_create, Api.call.
  change (default _ (Some ?x)) with x. fold guest_body.
  destruct (users_create_reply (remote w) guest_body) as [newUser | err]; [| reflexivity].
  unfold token_saved, setGuestId, setUser.
  destruct (guest_id newUser) as [t |].
  - destruct (truthy_string t).
    + unfold bind at 1. rewrite Cache.storage_set_healthy by exact Hh.
      unfold bind at 1. rewrite Cache.storage_set_healthy by exact Hh.
      reflexivity.
    + unfold bind at 1. unfold ret at 1.
      unfold bind at 1. rewrite Cache.storage_set_healthy by exact Hh.
      reflexivity.
  - unfold bind at 1. unfold ret at 1.
    unfold bind at 1. rewrite Cache.storage_set_healthy by exact Hh.
    reflexivity.
Qed.

(** [initializeUser] on a healthy store, by what the store holds. *)
Lemma initializeUser_healthy w :
  healthy w ->
  let settle e w' := set_hook (mkUseUserState (user (hook w')) false e) w' in
  initializeUser w =
  match stored Constants.USER_DATA w with
  | Some u => (Ret tt, set_hook (mkUseUserState (Some u) false None) w)
  | None =>
      match lookup_by_guest_id (stored Constants.GUEST_ID w)
              (set_hook (mkUseUserState (user (hook w)) true None) w) with
      | (Ret true, w1) => (Ret tt, settle (hook_error (hook w1)) w1)
      | (Ret false, w1) =>
          match create_guest w1 with
          | (Ret _, w2) => (Ret tt, settle (hook_error (hook w2)) w2)
          | (Throw e, w2) => (Ret tt, settle (Some (init_error_text e)) w2)
          end
      | (Throw e, w1) => (Ret tt, settle (Some (init_error_text e)) w1)
      end
  end.
Proof.
  intros Hh. cbv zeta.
  unfold initializeUser, try_finally, try_catch.
  unfold bind at 1. unfold bind at 1. unfold bind at 1.
  unfold setIsLoading at 1, setError at 1, modify, getUser, getGuestId.
  rewrite Cache.storage_get_healthy by exact Hh.
  change (stored Constants.USER_DATA (set_hook _ (set_hook _ w)))
    with (stored (T := User) Constants.USER_DATA w).
  destruct (stored Constants.USER_DATA w) as [u |]; [reflexivity |].
  unfold bind at 1. rewrite Cache.storage_get_healthy by exact Hh.
  change (stored Constants.GUEST_ID (set_hook _ (set_hook _ w)))
    with (stored (T := string) Constants.GUEST_ID w).
  unfold bind at 1.
  change (set_hook _ (set_hook _ w))
    with (set_hook (mkUseUserState (user (hook w)) true None) w).
  destruct (lookup_by_guest_id _ _) as [[[] | e] w1]; try reflexivity.
  destruct (create_guest w1) as [[[] | e] w2]; reflexivity.
Qed.

(** A bootstrap on a healthy store leaves the store healthy, and when it
    ends without an error the identity it returned is the one now held
    under [USER_DATA]. *)
Lemma initializeUser_persists w :
  healthy w ->
  let w1 := snd (initializeUser w) in
  healthy w1 /\
  (hook_error (hook w1) = None ->
   exists u, user (hook w1) = Some u /\
             disk w1 !! Constants.USER_DATA = Some (BlobUser u)).
Proof.
  intros Hh. cbv zeta. rewrite (initializeUser_healthy w Hh). cbv zeta.
  destruct (stored Constants.USER_DATA w) as [u |] eqn:Hu.
  { cbn [snd]. split; [exact Hh |]. intros _. exists u. split; [reflexivity |].
    now apply stored_user_iff. }
  rewrite lookup_by_guest_id_healthy by exact Hh.
  set (w0 := set_hook (mkUseUserState (user (hook w)) true None) w).
  assert (Hcreate : forall v, healthy v -> hook_error (hook v) = None ->
    let w1 := snd (match create_guest v with
                   | (Ret _, w2) =>
                       (Ret tt, set_hook (mkUseUserState (user (hook w2)) false
                                            (hook_error (hook w2))) w2)
                   | (Throw e, w2) =>
                       (Ret tt, set_hook (mkUseUserState (user (hook w2)) false
                                            (Some (init_error_text e))) w2)
                   end) in
    healthy w1 /\
    (hook_error (hook w1) = None ->
     exists u, user (hook w1) = Some u /\
               disk w1 !! Constants.USER_DATA = Some (BlobUser u))).
  { intros v Hv He. cbv zeta. rewrite (create_guest_healthy v Hv).
    destruct (users_create_reply (remote v) guest_body) as [newUser | err]; cbn [snd].
    - split; [exact Hv |]. intros _. exists newUser. split; [reflexivity |].
      cbn [disk set_hook set_disk]. apply lookup_insert_eq.
    - split; [exact Hv |]. cbn [hook set_hook hook_error]. discriminate. }
  destruct (stored Constants.GUEST_ID w) as [g |]; [| now apply Hcreate].
  destruct (truthy_string g); [| now apply Hcreate].
  destruct (getByGuestId_reply (remote w0) g) as [existing | err];
    [| now apply Hcreate].
  cbn [snd]. split; [exact Hh |]. intros _. exists existing. split; [reflexivity |].
  cbn [disk set_hook set_disk]. apply lookup_insert_eq.
Qed.

(** C7.  On a store that accepts its reads and writes: when a full identity
    is persisted, [initializeUser] returns it and sends nothing; and a
    bootstrap that ended without an error is followed by a second one that
    returns the same identity and sends nothing. *)
Theorem bootstrap_stability w :
  healthy w ->
  let w1 := snd (initializeUser w) in
  let w2 := snd (initializeUser w1) in
  (forall u, disk w !! Constants.USER_DATA = Some (BlobUser u) ->
     fst (initializeUser w) = Ret tt /\
     user (hook w1) = Some u /\ hook_error (hook w1) = None /\
     isLoading (hook w1) = false /\
     trace w1 = trace w /\ disk w1 = disk w) /\
  (hook_error (hook w1) = None ->
   exists u,
     user (hook w1) = Some u /\
     user (hook w2) = Some u /\ hook_error (hook w2) = None /\
     trace w2 = trace w1).
Proof.
  intros Hh. cbv zeta.
  assert (Hfirst : forall v u, healthy v ->
            disk v !! Constants.USER_DATA = Some (BlobUser u) ->
            initializeUser v = (Ret tt, set_hook (mkUseUserState (Some u) false None) v)).
  { intros v u Hv Hu. rewrite (initializeUser_healthy v Hv). cbv zeta.
    apply stored_user_iff in Hu. now rewrite Hu. }
  split.
  - intros u Hu. rewrite (Hfirst w u Hh Hu). cbn. repeat split.
  - intros Herr.
    destruct (initializeUser_persists w Hh) as (Hh1 & Hp).
    destruct (Hp Herr) as (u & Hu & Hd).
    exists u. split; [exact Hu |].
    rewrite (Hfirst _ u Hh1 Hd). cbn. repeat split.
Qed.

Lemma bootstrap_stability_witness :
  (let w1 := snd (initializeUser Samples.returning_world) in
   user (hook w1) = Some Samples.guest /\ trace w1 = []) /\
  (let w1 := snd (initializeUser Samples.lapsed_world) in
   let w2 := snd (initializeUser w1) in
   exists u,
     user (hook w1) = Some u /\
     user (hook w2) = Some u /\ hook_error (hook w2) = None /\
     trace w2 = trace w1).
Proof.
  split.
  - destruct (bootstrap_stability Samples.returning_world eq_refl) as (H & _).
    destruct (H Samples.guest eq_refl) as (_ & Hu & _ & _ & Ht & _).
    split; [exact Hu | exact Ht].
  - apply (bootstrap_stability Samples.lapsed_world); reflexivity.
Defined.

(** C8.  On a store that accepts its reads and writes, with no identity
    persisted, a guest token [g] persisted and the lookup of [g] rejected by
    the service (for whatever reason): [initializeUser] resolves, having
    sent the lookup and then the creation of a guest.  When the creation
    answers [newUser], no error is set, [newUser] is the identity returned
    and the one persisted, and the guest token of [newUser], when it has
    one, replaces the old one.  When the creation is rejected too, the
    error set is the creation's, never the lookup's. *)
Theorem bootstrap_fallback w g err :
  healthy w ->
  disk w !! Constants.USER_DATA = None ->
  disk w !! Constants.GUEST_ID = Some (BlobString g) ->
  g <> EmptyString ->
  getByGuestId_reply (remote w) g = Rejected err ->
  let r := initializeUser w in
  fst r = Ret tt /\
  isLoading (hook (snd r)) = false /\
  trace (snd r) =
    trace w ++ [EvRequest (GetUserByGuestId g); EvRequest (PostUsers guest_body)] /\
  (forall newUser,
     users_create_reply (remote w) guest_body = Ok newUser ->
     user (hook (snd r)) = Some newUser /\
     hook_error (hook (snd r)) = None /\
     disk (snd r) !! Constants.USER_DATA = Some (BlobUser newUser) /\
     (forall t, guest_id newUser = Some t -> t <> EmptyString ->
                disk (snd r) !! Constants.GUEST_ID = Some (BlobString t))) /\
  (forall err',
     users_create_reply (remote w) guest_body = Rejected err' ->
     user (hook (snd r)) = user (hook w) /\
     hook_error (hook (snd r)) =
       Some (str_or (response_detail err') (axios_message err'))).
Proof.
  intros Hh Hnone Htok Hg Hlookup. cbv zeta.
  rewrite (initializeUser_healthy w Hh). cbv zeta.
  unfold stored. rewrite Hnone, Htok. cbn [truthy_text parse Storable_string].
  rewrite lookup_by_guest_id_healthy by exact Hh.
  assert (Ht : truthy_string g = true) by (destruct g; [congruence | reflexivity]).
  rewrite Ht. cbn [remote set_hook]. rewrite Hlookup.
  rewrite create_guest_healthy by exact Hh.
  cbn [remote log set_hook].
  destruct (users_create_reply (remote w) guest_body) as [created | failure];
    cbn [fst snd hook user hook_error isLoading trace disk set_hook set_disk log];
    (split; [reflexivity |]); (split; [reflexivity |]);
    (split; [now rewrite <- app_assoc |]); split.
  - intros newUser [= <-]. repeat split.
    + apply lookup_insert_eq.
    + intros t Hgt Hne. unfold token_saved. rewrite Hgt.
      assert (Htt : truthy_string t = true)
        by (destruct t; [congruence | reflexivity]).
      rewrite Htt. rewrite lookup_insert_ne by discriminate.
      apply lookup_insert_eq.
  - intros err' [=].
  - intros newUser [=].
  - intros err' [= <-]. split; reflexivity.
Qed.

Lemma bootstrap_fallback_witness :
  let r := initializeUser Samples.lapsed_world in
  fst r = Ret tt /\
  user (hook (snd r)) = Some Samples.guest /\
  hook_error (hook (snd r)) = None /\
  disk (snd r) !! Constants.USER_DATA = Some (BlobUser Samples.guest) /\
  disk (snd r) !! Constants.GUEST_ID = Some (BlobString "g-2") /\
  trace (snd r) =
    [EvRequest (GetUserByGuestId "g-1"); EvRequest (PostUsers guest_body)].
Proof.
  destruct (bootstrap_fallback Samples.lapsed_world "g-1" Samples.not_found)
    as (H1 & _ & H3 & H4 & _).
  - reflexivity.
  - reflexivity.
  - reflexivity.
  - discriminate.
  - reflexivity.
  - destruct (H4 Samples.guest eq_refl) as (Hu & He & Hd & Hg).
    split; [exact H1 |]. split; [exact Hu |]. split; [exact He |].
    split; [exact Hd |]. split; [| exact H3].
    apply Hg; [reflexivity | discriminate].
Defined.

End Bootstrap.

(** ** Further properties of the job orchestrator *)

Module OrchestratorMore.

Import Api Spec Samples MoreSamples Terms Orchestrator.

Lemma polled_refl w : polled 0 w w.
Proof. unfold polled. repeat split; lia. Qed.

Lemma polled_log_other j e w w' :
  is_job_status_call e = false -> polled j w w' -> polled j w (log e w').
Proof.
  intros He (Hd & Hf & Hh & Hr & Hc & Ht). unfold polled.
  rewrite job_status_calls_log, He. cbn [disk faults hook remote clock log].
  repeat split; try assumption. lia.
Qed.

Lemma notify_footprint cb st msg j w w' :
  polled j w w' -> polled j w (snd (notify cb st msg w')).
Proof.
  intros H. destruct cb as [g |]; cbn [notify]; [| exact H].
  destruct (g (progress_events w') st msg); cbn [snd];
    now apply polled_log_other.
Qed.

Lemma poll_footprint toISOString noteId cb jid n : forall w,
  exists j, (j <= n)%nat /\ polled j w (snd (poll toISOString noteId cb jid n w)).
Proof.
  induction n as [| n IH]; intros w.
  - exists 0%nat. split; [lia | apply polled_refl].
  - rewrite poll_unfold. cbv zeta.
    set (v := log (EvRequest (GetJobStatus jid))
                (log (EvTimer pollInterval) (set_clock (clock w + pollInterval) w))).
    assert (Hv : polled 1 w v).
    { unfold polled, v. rewrite !job_status_calls_log.
      cbn [disk faults hook remote clock log set_clock is_job_status_call].
      unfold job_status_calls. cbn [trace set_clock].
      change pollInterval with 2000. repeat split; lia. }
    destruct (kth_status w jid 0) as [st | err].
    + pose proof (notify_footprint cb (status_string (status st)) (progress_message st) 1 w v Hv) as Hn.
      destruct (notify cb _ _ v) as [[[] | e] v']; cbn [snd] in Hn.
      * destruct (completed_summary st).
        { exists 1%nat. split; [lia | exact Hn]. }
        assert (Hrec : exists j, (j <= S n)%nat /\
                  polled j w (snd (poll toISOString noteId cb jid n v'))).
        { destruct (IH v') as (j & Hj & Hp). exists (S j). split; [lia |].
          destruct Hn as (Hd & Hf & Hh & Hr & Hc & Ht).
          destruct Hp as (Hd' & Hf' & Hh' & Hr' & Hc' & Ht').
          unfold polled. rewrite Hd', Hf', Hh', Hr', Hc', Ht', Hd, Hf, Hh, Hr, Hc, Ht.
          repeat split; lia. }
        destruct (status st); try exact Hrec.
        exists 1%nat. split; [lia | exact Hn].
      * exists 1%nat. split; [lia | exact Hn].
    + exists 1%nat. split; [lia | exact Hv].
Qed.

Lemma run_footprint toISOString noteId options cb w :
  exists j, (j <= 180)%nat /\
    polled j w (snd (generateWithPolling toISOString noteId options cb w)).
Proof.
  rewrite run_unfold.
  pose proof (notify_footprint cb "pending" "Starting summary job..." 0 w w (polled_refl w)) as H1.
  destruct (notify cb "pending" "Starting summary job..." w) as [[[] | e] w1]; cbn [snd] in H1.
  2: { exists 0%nat. split; [lia | exact H1]. }
  cbv zeta.
  assert (H2 : polled 0 w (log (submitted noteId options) w1))
    by (apply polled_log_other; [reflexivity | exact H1]).
  destruct (submit_reply w1 noteId options) as [job | err].
  2: { exists 0%nat. split; [lia | exact H2]. }
  destruct (cache_hit job) as [s |].
  - pose proof (notify_footprint cb "completed" "Using cached summary" 0 w _ H2) as H3.
    destruct (notify cb "completed" "Using cached summary" _) as [[[] | e] w3];
      cbn [snd] in *; exists 0%nat; (split; [lia | exact H3]).
  - destruct (usable_job_id job) as [jid |].
    + destruct (poll_footprint toISOString noteId cb jid maxAttempts
                  (log (submitted noteId options) w1)) as (j & Hj & Hp).
      exists j. split; [exact Hj |].
      destruct H2 as (Hd & Hf & Hh & Hr & Hc & Ht).
      destruct Hp as (Hd' & Hf' & Hh' & Hr' & Hc' & Ht').
      unfold polled. rewrite Hd', Hf', Hh', Hr', Hc', Ht', Hd, Hf, Hh, Hr, Hc, Ht.
      repeat split; lia.
    + exists 0%nat. split; [lia | exact H2].
Qed.

(** X1.  Whatever the service answers and whatever the callback does,
    [generateWithPolling] leaves the device alone: AsyncStorage, the hook
    state and the service are as they were. *)
Theorem orchestrator_leaves_device_alone toISOString noteId options cb w :
  let w' := snd (generateWithPolling toISOString noteId options cb w) in
  disk w' = disk w /\ faults w' = faults w /\ hook w' = hook w /\ remote w' = remote w.
Proof.
  cbv zeta.
  destruct (run_footprint toISOString noteId options cb w)
    as (j & _ & Hd & Hf & Hh & Hr & _).
  auto.
Qed.

(** X2.  Whatever the service answers and whatever the callback does, one
    run calls the job-status endpoint at most 180 times, and the clock has
    moved by exactly 2000 ms per job-status call made. *)
Theorem polling_budget toISOString noteId options cb w :
  let w' := snd (generateWithPolling toISOString noteId options cb w) in
  exists j, (j <= 180)%nat /\
    job_status_calls w' = (job_status_calls w + j)%nat /\
    clock w' = clock w + Z.of_nat j * 2000.
Proof.
  cbv zeta.
  destruct (run_footprint toISOString noteId options cb w)
    as (j & Hj & _ & _ & _ & _ & Hc & Ht).
  exists j. auto.
Qed.

(** X3.  When the submission itself is rejected, [generateWithPolling]
    fails with the interceptor's [ApiServiceError] and has sent the one
    submission only; with no response at all the error has status 500 and
    the failure's own message as detail. *)
Theorem submission_rejected toISOString noteId options cb w err :
  quiet cb ->
  submit_reply w noteId options = Rejected err ->
  let r := generateWithPolling toISOString noteId options cb w in
  fst r = Throw (intercept_error err) /\
  trace (snd r) =
    trace w ++ emitted cb "pending" "Starting summary job..."
            ++ [submitted noteId options] /\
  (response_status err = None -> response_detail err = None ->
   fst r = Throw (ApiServiceError ("API Error: " +:+ axios_message err) 500
                                  (axios_message err))).
Proof.
  intros Hq Hsub. cbv zeta. rewrite run_unfold.
  rewrite notify_quiet by exact Hq. cbv zeta.
  replace (submit_reply (noted cb "pending" "Starting summary job..." w) noteId options)
    with (submit_reply w noteId options)
    by (unfold submit_reply; now rewrite remote_noted).
  rewrite Hsub. cbn [fst snd trace log].
  split; [reflexivity |]. split.
  - rewrite trace_noted. now rewrite <- app_assoc.
  - intros Hs Hd. unfold intercept_error. now rewrite Hs, Hd.
Qed.

Lemma submission_rejected_witness :
  let r := generateWithPolling ms_text 5 None None unreachable_world in
  fst r = Throw (ApiServiceError "API Error: Network Error" 500 "Network Error") /\
  trace (snd r) = [submitted 5 None].
Proof.
  destruct (submission_rejected ms_text 5 None None unreachable_world network_down)
    as (_ & Ht & He).
  - exact I.
  - reflexivity.
  - split; [apply He; reflexivity | exact Ht].
Defined.

Section ReachAttempt.

Variable toISOString : Z -> string.
Variables (noteId : Z) (options : option GenerateSummaryRequest).
Variables (cb : option Callback) (w : World) (job : AsyncJobResponse) (jid : string).
Variable k : nat.
Hypothesis cb_quiet : quiet cb.
Hypothesis submit_ok : submit_reply w noteId options = Ok job.
Hypothesis no_hit : cache_hit job = None.
Hypothesis has_id : usable_job_id job = Some jid.
Hypothesis in_budget : (k < 180)%nat.
Hypothesis idle : forall i, (i < k)%nat ->
  exists st, kth_status w jid i = Ok st /\ non_terminal st = true.

(** The run up to its [k]-th poll. *)
Lemma run_reaches_attempt :
  let wk := after_attempts cb jid k (submitted_world cb noteId options w) in
  generateWithPolling toISOString noteId options cb w =
    poll toISOString noteId cb jid (S (179 - k)) wk /\
  kth_status wk jid 0 = kth_status w jid k /\
  job_status_calls wk = (job_status_calls w + k)%nat /\
  clock wk = clock w + Z.of_nat k * 2000.
Proof.
  cbv zeta.
  rewrite (run_polling toISOString noteId options cb w job cb_quiet submit_ok jid
             no_hit has_id).
  set (w0 := submitted_world cb noteId options w).
  assert (Hall0 : forall i, (i < k)%nat ->
            exists st', kth_status w0 jid i = Ok st' /\ non_terminal st' = true).
  { intros i Hi. unfold w0. rewrite kth_status_submitted. now apply idle. }
  replace maxAttempts with (k + S (179 - k))%nat by (unfold maxAttempts; lia).
  rewrite poll_skip by assumption.
  destruct (after_attempts_facts cb jid k w0) as (_ & Hc & Ht & Hk0).
  { intros i Hi. destruct (Hall0 i Hi) as (st' & H' & _). eauto. }
  destruct (submitted_world_facts cb noteId options w) as (_ & Hc' & Hj' & _).
  fold w0 in Hc', Hj'.
  split; [reflexivity |]. split; [| split].
  - rewrite Hk0, Nat.add_0_r. unfold w0. now rewrite kth_status_submitted.
  - rewrite Hc, Hj'. reflexivity.
  - rewrite Ht, Hc'. change pollInterval with 2000. reflexivity.
Qed.

End ReachAttempt.

(** X4.  When a job-status call is rejected (the [k]-th, after [k]
    non-terminal answers), [generateWithPolling] fails on that attempt with
    the interceptor's [ApiServiceError]: the loop does not retry a failed
    call. *)
Theorem poll_transport_failure_is_fatal toISOString noteId options cb w job jid k err :
  quiet cb ->
  submit_reply w noteId options = Ok job ->
  cache_hit job = None ->
  usable_job_id job = Some jid ->
  (k < 180)%nat ->
  (forall i, (i < k)%nat ->
     exists st, kth_status w jid i = Ok st /\ non_terminal st = true) ->
  kth_status w jid k = Rejected err ->
  let r := generateWithPolling toISOString noteId options cb w in
  fst r = Throw (intercept_error err) /\
  job_status_calls (snd r) = (job_status_calls w + k + 1)%nat.
Proof.
  intros Hq Hsub Hmiss Hid Hk Hall Hrej. cbv zeta.
  destruct (run_reaches_attempt toISOString noteId options cb w job jid k
              Hq Hsub Hmiss Hid Hk Hall) as (-> & Hst & Hc & _).
  rewrite poll_unfold. cbv zeta. rewrite Hst, Hrej. cbn [fst snd].
  split; [reflexivity |].
  rewrite !job_status_calls_log. cbn [is_job_status_call].
  unfold job_status_calls at 1. cbn [trace set_clock].
  fold (job_status_calls (after_attempts cb jid k (submitted_world cb noteId options w))).
  rewrite Hc. lia.
Qed.

Lemma poll_transport_failure_is_fatal_witness :
  let r := generateWithPolling ms_text 5 None None dropping_world in
  fst r = Throw (intercept_error network_down) /\
  job_status_calls (snd r) = (0 + 2 + 1)%nat.
Proof.
  apply (poll_transport_failure_is_fatal ms_text 5 None None dropping_world
           queued "job-1" 2 network_down).
  - exact I.
  - reflexivity.
  - reflexivity.
  - reflexivity.
  - lia.
  - intros i Hi. exists halfway.
    destruct i as [| [| i]]; [split; reflexivity | split; reflexivity | lia].
  - reflexivity.
Defined.

(** X5.  When the [k]-th poll (after [k] non-terminal answers) is answered
    [completed] with a summary, [generateWithPolling] resolves on that
    attempt with the payload normalized with model default ["unknown"]; the
    result comes [(k + 1) * 2000] ms after the start, after [k + 1]
    job-status calls. *)
Theorem completes_at_poll toISOString noteId options cb w job jid k st s :
  quiet cb ->
  submit_reply w noteId options = Ok job ->
  cache_hit job = None ->
  usable_job_id job = Some jid ->
  (k < 180)%nat ->
  (forall i, (i < k)%nat ->
     exists st', kth_status w jid i = Ok st' /\ non_terminal st' = true) ->
  kth_status w jid k = Ok st ->
  status st = completed ->
  summary st = Some s ->
  let r := generateWithPolling toISOString noteId options cb w in
  let now := clock w + (Z.of_nat k + 1) * 2000 in
  fst r = Ret (normalize toISOString noteId "unknown" now s) /\
  clock (snd r) = now /\
  job_status_calls (snd r) = (job_status_calls w + k + 1)%nat.
Proof.
  intros Hq Hsub Hmiss Hid Hk Hall Hst Hdone Hsum. cbv zeta.
  destruct (run_reaches_attempt toISOString noteId options cb w job jid k
              Hq Hsub Hmiss Hid Hk Hall) as (-> & Hst0 & Hc & Ht).
  rewrite Hst in Hst0.
  rewrite (poll_attempt toISOString noteId cb jid Hq _ _ st Hst0).
  unfold completed_summary. rewrite Hdone, Hsum. cbn [fst snd].
  rewrite clock_after_attempt, job_status_calls_after_attempt, Hc, Ht.
  change pollInterval with 2000.
  split; [f_equal; f_equal; lia |]. split; lia.
Qed.

Lemma completes_at_poll_witness :
  let r := generateWithPolling ms_text 5 None None four_step_world in
  let now := 0 + (Z.of_nat 3 + 1) * 2000 in
  fst r = Ret (normalize ms_text 5 "unknown" now bare_payload) /\
  clock (snd r) = now /\
  job_status_calls (snd r) = (0 + 3 + 1)%nat.
Proof.
  apply (completes_at_poll ms_text 5 None None four_step_world queued "job-1" 3
           (four_step_script 3) bare_payload).
  - exact I.
  - reflexivity.
  - reflexivity.
  - reflexivity.
  - lia.
  - intros i Hi. exists (four_step_script i).
    destruct i as [| [| [| i]]]; [split; reflexivity .. | lia].
  - reflexivity.
  - reflexivity.
  - reflexivity.
Defined.

End OrchestratorMore.

(** ** Further properties of the storage wrappers *)

Module StorageMore.

Import Storage Spec Samples MoreSamples Terms Settings Cache.

#[export] Instance Lawful_string : Lawful string.
Proof. split; reflexivity. Qed.
#[export] Instance Lawful_User : Lawful User.
Proof. split; reflexivity. Qed.
#[export] Instance Lawful_CachedNotes : Lawful CachedNotes.
Proof. split; reflexivity. Qed.
#[export] Instance Lawful_AppSettings : Lawful AppSettings.
Proof. split; reflexivity. Qed.

Lemma storage_set_run {T} `{Storable T} key (v : T) w :
  storage_set key v w =
  match faults w with
  | [] => (Ret tt, set_disk (<[key := stringify v]> (disk w)) w)
  | true :: rest => (Ret tt, set_faults rest w)
  | false :: rest =>
      (Ret tt, set_disk (<[key := stringify v]> (disk w)) (set_faults rest w))
  end.
Proof.
  unfold storage_set, try_catch, AsyncStorage_setItem, AsyncStorage_call, next_fault.
  destruct (faults w) as [| [] rest]; reflexivity.
Qed.

Lemma storage_remove_run key w :
  storage_remove key w =
  match faults w with
  | [] => (Ret tt, set_disk (delete key (disk w)) w)
  | true :: rest => (Ret tt, set_faults rest w)
  | false :: rest => (Ret tt, set_disk (delete key (disk w)) (set_faults rest w))
  end.
Proof.
  unfold storage_remove, try_catch, AsyncStorage_removeItem, AsyncStorage_call, next_fault.
  destruct (faults w) as [| [] rest]; reflexivity.
Qed.

Lemma storage_clear_run w :
  storage_clear w =
  let wiped := foldr (fun k d => delete k d) (disk w) Constants.STORAGE_KEYS in
  match faults w with
  | [] => (Ret tt, set_disk wiped w)
  | true :: rest => (Ret tt, set_faults rest w)
  | false :: rest => (Ret tt, set_disk wiped (set_faults rest w))
  end.
Proof.
  unfold storage_clear, try_catch, AsyncStorage_multiRemove, AsyncStorage_call, next_fault.
  destruct (faults w) as [| [] rest]; reflexivity.
Qed.

Lemma storage_get_run {T} `{Storable T} key w :
  storage_get (T := T) key w =
  match faults w with
  | [] => (Ret (stored key w), w)
  | true :: rest => (Ret None, set_faults rest w)
  | false :: rest => (Ret (stored key w), set_faults rest w)
  end.
Proof.
  unfold storage_get, try_catch, bind, AsyncStorage_getItem, AsyncStorage_call,
    next_fault, stored, JSON_parse.
  destruct (faults w) as [| [] rest]; cbn [disk set_faults]; try reflexivity.
  - destruct (disk w !! key) as [text |]; [| reflexivity].
    destruct (truthy_text text); [| reflexivity].
    destruct (parse text); reflexivity.
  - destruct (disk w !! key) as [text |]; [| reflexivity].
    destruct (truthy_text text); [| reflexivity].
    destruct (parse text); reflexivity.
Qed.

(** X6.  On a store that accepts its calls, [storage.get] after
    [storage.set] of a value under the same key returns that value, and the
    write leaves every other key as it was. *)
Theorem storage_round_trip {T} `{Lawful T} key (v : T) w :
  healthy w ->
  let w1 := snd (storage_set key v w) in
  fst (storage_get key w1) = Ret (Some v) /\
  (forall key', key' <> key -> disk w1 !! key' = disk w !! key').
Proof.
  intros Hh. cbv zeta. rewrite storage_set_run, Hh. cbn [snd].
  rewrite storage_get_run. cbn [faults set_disk]. rewrite Hh. cbn [fst].
  split.
  - unfold stored. cbn [disk set_disk]. rewrite lookup_insert_eq.
    now rewrite stringify_truthy, parse_stringify.
  - intros key' Hne. cbn [disk set_disk]. now rewrite lookup_insert_ne.
Qed.

Lemma storage_round_trip_witness :
  let w1 := snd (storage_set Constants.GUEST_ID "g-9" returning_world) in
  fst (storage_get Constants.GUEST_ID w1) = Ret (Some "g-9") /\
  disk w1 !! Constants.USER_DATA = Some (BlobUser guest).
Proof.
  destruct (storage_round_trip Constants.GUEST_ID "g-9" returning_world eq_refl)
    as (Hget & Hother).
  split; [exact Hget |].
  rewrite Hother by discriminate. reflexivity.
Defined.

(** X7.  Whether AsyncStorage accepts or rejects the call, [storage.set],
    [storage.remove] and [storage.clear] resolve: a failure of the store is
    caught and never reaches the caller. *)
Theorem storage_writes_always_resolve {T} `{Storable T} key (v : T) w :
  fst (storage_set key v w) = Ret tt /\
  fst (storage_remove key w) = Ret tt /\
  fst (storage_clear w) = Ret tt.
Proof.
  rewrite storage_set_run, storage_remove_run, storage_clear_run. cbv zeta.
  destruct (faults w) as [| [] rest]; repeat split.
Qed.

(** X8.  On a store that accepts its calls, [storage.get] after
    [storage.remove] of the same key returns [null], and the removal leaves
    every other key as it was. *)
Theorem storage_remove_then_get {T} `{Storable T} key w :
  healthy w ->
  let w1 := snd (storage_remove key w) in
  fst (storage_get (T := T) key w1) = Ret None /\
  (forall key', key' <> key -> disk w1 !! key' = disk w !! key').
Proof.
  intros Hh. cbv zeta. rewrite storage_remove_run, Hh. cbn [snd].
  rewrite storage_get_run. cbn [faults set_disk]. rewrite Hh. cbn [fst].
  split.
  - unfold stored. cbn [disk set_disk]. now rewrite lookup_delete_eq.
  - intros key' Hne. cbn [disk set_disk]. now rewrite lookup_delete_ne.
Qed.

Lemma storage_remove_then_get_witness :
  fst (storage_get (T := User) Constants.USER_DATA
         (snd (storage_remove Constants.USER_DATA returning_world))) = Ret None.
Proof.
  apply (storage_remove_then_get (T := User) Constants.USER_DATA returning_world eq_refl).
Defined.

(** X9.  On a store that accepts its calls, [storage.clear] removes the four
    keys of the application and nothing else. *)
Theorem storage_clear_wipes_app_keys w :
  healthy w ->
  let w1 := snd (storage_clear w) in
  (forall key, In key Constants.STORAGE_KEYS -> disk w1 !! key = None) /\
  (forall key, ~ In key Constants.STORAGE_KEYS -> disk w1 !! key = disk w !! key).
Proof.
  intros Hh. cbv zeta. rewrite storage_clear_run, Hh. cbn [snd disk set_disk].
  split.
  - generalize (disk w).
    induction Constants.STORAGE_KEYS as [| k keys IH]; intros d key Hin; [destruct Hin |].
    cbn [foldr]. destruct (decide (k = key)) as [-> | Hne].
    + apply lookup_delete_eq.
    + rewrite lookup_delete_ne by exact Hne. apply IH.
      destruct Hin as [-> | Hin]; [contradiction | exact Hin].
  - generalize (disk w).
    induction Constants.STORAGE_KEYS as [| k keys IH]; intros d key Hout; [reflexivity |].
    cbn [foldr]. rewrite lookup_delete_ne.
    + apply IH. intros Hin. apply Hout. now right.
    + intros ->. apply Hout. now left.
Qed.

Lemma storage_clear_wipes_app_keys_witness :
  disk (snd (storage_clear returning_world)) !! Constants.USER_DATA = None.
Proof.
  apply (storage_clear_wipes_app_keys returning_world eq_refl).
  right. left. reflexivity.
Defined.

Lemma storage_get_unreadable {T} `{Storable T}
    (garbage : forall raw, parse (T := T) (BlobGarbage raw) = None) key w :
  unreadable key w -> fst (storage_get (T := T) key w) = Ret None.
Proof.
  intros Hu. rewrite storage_get_run. unfold stored.
  destruct Hu as [(rest & ->) | [Hnone | (raw & Hraw)]]; [reflexivity | |].
  - rewrite Hnone. destruct (faults w) as [| [] rest]; reflexivity.
  - rewrite Hraw. cbn [truthy_text]. rewrite garbage.
    destruct (faults w) as [| [] rest]; cbn [fst]; try reflexivity;
      destruct (truthy_string raw); reflexivity.
Qed.

Lemma disk_storage_get {T} `{Storable T} key w :
  disk (snd (storage_get (T := T) key w)) = disk w /\
  clock (snd (storage_get (T := T) key w)) = clock w.
Proof.
  rewrite storage_get_run. destruct (faults w) as [| [] rest]; split; reflexivity.
Qed.

Lemma getNotes_unreadable w :
  unreadable Constants.NOTES_CACHE w -> fst (getNotes w) = Ret [].
Proof.
  intros Hu. unfold getNotes, bind at 1.
  pose proof (storage_get_unreadable (T := CachedNotes) (fun _ => eq_refl)
                Constants.NOTES_CACHE w Hu) as Hg.
  destruct (storage_get Constants.NOTES_CACHE w) as [[cached | e] w'];
    cbn [fst] in Hg; [| discriminate Hg].
  injection Hg as ->. reflexivity.
Qed.

(** X10.  [getNotes] only reads: whatever the store holds or does, its
    contents and the clock are the same after the call.  In particular a
    stale cache entry is not evicted by being read. *)
Theorem getNotes_is_read_only w :
  disk (snd (getNotes w)) = disk w /\ clock (snd (getNotes w)) = clock w.
Proof.
  unfold getNotes, bind, Date_now, gets, ret.
  pose proof (disk_storage_get (T := CachedNotes) Constants.NOTES_CACHE w) as Hd.
  destruct (storage_get Constants.NOTES_CACHE w) as [[cached | e] w'];
    cbn [snd] in Hd; [| exact Hd].
  destruct cached as [c |]; [| exact Hd].
  destruct (clock w' - timestamp c <? freshnessWindow); exact Hd.
Qed.

(** X11.  [getNotes] returns the empty list when the read is rejected, when
    nothing is cached, and when what is cached does not parse. *)
Theorem notes_cache_unreadable_is_empty w :
  unreadable Constants.NOTES_CACHE w -> fst (getNotes w) = Ret [].
Proof. apply getNotes_unreadable. Qed.

Lemma notes_cache_unreadable_is_empty_witness :
  fst (getNotes flaky_world) = Ret [] /\
  fst (getNotes
         (set_disk {[ Constants.NOTES_CACHE := BlobGarbage "{notes:" ]} returning_world))
    = Ret [].
Proof.
  split.
  - apply (notes_cache_unreadable_is_empty flaky_world).
    left. exists []. reflexivity.
  - apply (notes_cache_unreadable_is_empty
             (set_disk {[ Constants.NOTES_CACHE := BlobGarbage "{notes:" ]} returning_world)).
    right. right. exists "{notes:". reflexivity.
Defined.

(** X12.  On a store that accepts its calls, the cache holds the last list
    written and its five minutes run from the last write: after
    [setNotes a], any wait, and [setNotes b], [getNotes] returns [b] for
    five minutes from the second write and the empty list afterwards. *)
Theorem notes_cache_last_write_wins a b w d1 d2 :
  healthy w ->
  let w2 := snd (setNotes b (elapse d1 (snd (setNotes a w)))) in
  let r := getNotes (elapse d2 w2) in
  (d2 < 5 * 60 * 1000 -> fst r = Ret b) /\
  (5 * 60 * 1000 <= d2 -> fst r = Ret []).
Proof.
  intros Hh. cbv zeta.
  rewrite (setNotes_healthy a w Hh). cbn [snd].
  set (w1 := elapse d1 _).
  assert (Hh1 : healthy w1) by exact Hh.
  rewrite (setNotes_healthy b w1 Hh1). cbn [snd].
  set (c := mkCachedNotes b (clock w1)).
  set (w3 := elapse d2 _).
  assert (Hget : getNotes w3 = (if d2 <? freshnessWindow then Ret b else Ret [], w3)).
  { unfold getNotes, bind at 1.
    rewrite storage_get_healthy by exact Hh1.
    unfold stored. cbn [disk w3 elapse set_clock set_disk].
    rewrite lookup_insert_eq. cbn [truthy_text parse Storable_CachedNotes].
    unfold bind, Date_now, gets, ret. cbn [timestamp notes c].
    replace (clock w3 - clock w1) with d2
      by (unfold w3, elapse; cbn [clock set_clock set_disk]; lia).
    destruct (d2 <? freshnessWindow); reflexivity. }
  rewrite Hget. cbn [fst]. unfold freshnessWindow. split.
  - intros Hlt. apply Z.ltb_lt in Hlt. now rewrite Hlt.
  - intros Hge. apply Z.ltb_ge in Hge. now rewrite Hge.
Qed.

Lemma notes_cache_last_write_wins_witness :
  let w2 := snd (setNotes [seminar] (elapse 400000 (snd (setNotes [lecture] cached_world)))) in
  fst (getNotes (elapse 1000 w2)) = Ret [seminar] /\
  fst (getNotes (elapse 300000 w2)) = Ret [].
Proof.
  split.
  - apply (notes_cache_last_write_wins [lecture] [seminar] cached_world 400000 1000);
      [reflexivity | lia].
  - apply (notes_cache_last_write_wins [lecture] [seminar] cached_world 400000 300000);
      [reflexivity | lia].
Defined.

(** X13.  On a store that accepts its calls, [getNotes] after [clearCache]
    returns the empty list, however fresh the list cached before. *)
Theorem clearCache_empties_cache items w :
  healthy w ->
  fst (getNotes (snd (clearCache (snd (setNotes items w))))) = Ret [].
Proof.
  intros Hh. apply getNotes_unreadable. right. left.
  rewrite (setNotes_healthy items w Hh). cbn [snd].
  unfold clearCache. rewrite storage_remove_run. cbn [faults set_disk]. rewrite Hh.
  cbn [snd disk set_disk]. apply lookup_delete_eq.
Qed.

Lemma clearCache_empties_cache_witness :
  fst (getNotes (snd (clearCache (snd (setNotes [lecture] cached_world))))) = Ret [].
Proof.
  apply (clearCache_empties_cache [lecture] cached_world). reflexivity.
Defined.

(** *** Settings *)

(** X14.  [getSettings] returns the default settings when the read is
    rejected, when nothing is stored, and when what is stored does not
    parse. *)
Theorem settings_default_when_unreadable w :
  unreadable Constants.SETTINGS w -> fst (getSettings w) = Ret DEFAULT_SETTINGS.
Proof.
  intros Hu. unfold getSettings, bind.
  pose proof (storage_get_unreadable (T := AppSettings) (fun _ => eq_refl)
                Constants.SETTINGS w Hu) as Hg.
  destruct (storage_get Constants.SETTINGS w) as [[settings | e] w'];
    cbn [fst] in Hg; [| discriminate Hg].
  injection Hg as ->. reflexivity.
Qed.

Lemma settings_default_when_unreadable_witness :
  fst (getSettings returning_world) = Ret DEFAULT_SETTINGS.
Proof.
  apply (settings_default_when_unreadable returning_world).
  right. left. reflexivity.
Defined.

Lemma getSettings_healthy w :
  healthy w ->
  getSettings w = (Ret (default DEFAULT_SETTINGS (stored Constants.SETTINGS w)), w).
Proof.
  intros Hh. unfold getSettings, bind. now rewrite storage_get_healthy.
Qed.

Lemma stored_settings_insert (v : AppSettings) w :
  stored Constants.SETTINGS
    (set_disk (<[Constants.SETTINGS := BlobSettings v]> (disk w)) w) = Some v.
Proof. unfold stored. cbn [disk set_disk]. now rewrite lookup_insert_eq. Qed.

(** X15.  On a store that accepts its calls, [getSettings] after
    [setSettings patch] returns the settings read before with the fields of
    the patch laid over them; and after [resetSettings] it returns the
    defaults again. *)
Theorem settings_patch_is_merged patch w :
  healthy w ->
  exists current,
    fst (getSettings w) = Ret current /\
    fst (getSettings (snd (setSettings patch w))) = Ret (spread current patch) /\
    fst (getSettings (snd (resetSettings (snd (setSettings patch w))))) =
      Ret DEFAULT_SETTINGS.
Proof.
  intros Hh. exists (default DEFAULT_SETTINGS (stored Constants.SETTINGS w)).
  rewrite (getSettings_healthy w Hh). split; [reflexivity |].
  unfold setSettings, bind. rewrite (getSettings_healthy w Hh).
  rewrite storage_set_healthy by exact Hh. cbn [snd stringify Storable_AppSettings].
  split.
  - rewrite getSettings_healthy by exact Hh. now rewrite stored_settings_insert.
  - unfold resetSettings. rewrite storage_set_healthy by exact Hh.
    cbn [snd stringify Storable_AppSettings].
    rewrite getSettings_healthy by exact Hh.
    now rewrite stored_settings_insert.
Qed.

Lemma settings_patch_is_merged_witness :
  fst (getSettings (snd (setSettings dark_mode returning_world))) =
    Ret (mkAppSettings len_medium summary_t true).
Proof.
  destruct (settings_patch_is_merged dark_mode returning_world eq_refl)
    as (current & Hc & Hafter & _).
  rewrite Hafter. injection Hc as <-. reflexivity.
Defined.

(** X16.  When the read inside [setSettings] is rejected and the write goes
    through, the settings stored are the defaults with the patch laid over
    them, whatever was stored before. *)
Theorem settings_patch_after_rejected_read patch w :
  faults w = [true] ->
  fst (getSettings (snd (setSettings patch w))) = Ret (spread DEFAULT_SETTINGS patch).
Proof.
  intros Hf.
  assert (Hset : setSettings patch w =
                 (Ret tt,
                  set_disk (<[Constants.SETTINGS :=
                               BlobSettings (spread DEFAULT_SETTINGS patch)]> (disk w))
                    (set_faults [] w))).
  { unfold setSettings, getSettings, bind, ret.
    rewrite storage_get_run, Hf. rewrite storage_set_run. reflexivity. }
  rewrite Hset. cbn [snd].
  rewrite getSettings_healthy by reflexivity.
  unfold stored. cbn [disk set_disk set_faults]. now rewrite lookup_insert_eq.
Qed.

Lemma settings_patch_after_rejected_read_witness :
  fst (getSettings
         (snd (setSettings dark_mode
                 (set_faults [true]
                    (set_disk {[ Constants.SETTINGS :=
                                   BlobSettings (mkAppSettings len_long key_points false) ]}
                       returning_world))))) =
    Ret (mkAppSettings len_medium summary_t true).
Proof.
  apply (settings_patch_after_rejected_read dark_mode
           (set_faults [true]
              (set_disk {[ Constants.SETTINGS :=
                             BlobSettings (mkAppSettings len_long key_points false) ]}
                 returning_world))).
  reflexivity.
Defined.

End StorageMore.

(** ** Further properties of the identity bootstrap *)

Module BootstrapMore.

Import Storage Hooks Spec Samples MoreSamples Cache Bootstrap.

Lemma initializeUser_run w :
  exists w', initializeUser w = (Ret tt, w') /\ isLoading (hook w') = false.
Proof.
  unfold initializeUser.
  unfold bind at 1. unfold setIsLoading at 1, modify at 1.
  unfold bind at 1. unfold setError at 1, modify at 1.
  unfold try_finally, try_catch.
  match goal with
  | |- context [bind getUser ?k ?v] => destruct (bind getUser k v) as [[[] | e] w1]
  end; cbn; eexists; split; reflexivity.
Qed.

(** X17.  Whatever the store and the service do, [initializeUser] resolves
    (it never rejects) and leaves [isLoading] false. *)
Theorem initializeUser_always_settles w :
  let r := initializeUser w in
  fst r = Ret tt /\ isLoading (hook (snd r)) = false.
Proof.
  cbv zeta. destruct (initializeUser_run w) as (w' & -> & Hl). split; [reflexivity | exact Hl].
Qed.

(** X18.  On a store that accepts its calls, with no identity persisted and
    a guest token the service knows: [initializeUser] returns the identity
    the lookup gave, persists it and sends the lookup only; no guest is
    created. *)
Theorem bootstrap_known_guest w g existing :
  healthy w ->
  disk w !! Constants.USER_DATA = None ->
  disk w !! Constants.GUEST_ID = Some (BlobString g) ->
  g <> EmptyString ->
  getByGuestId_reply (remote w) g = Ok existing ->
  let r := initializeUser w in
  user (hook (snd r)) = Some existing /\
  hook_error (hook (snd r)) = None /\
  disk (snd r) = <[Constants.USER_DATA := BlobUser existing]> (disk w) /\
  trace (snd r) = trace w ++ [EvRequest (GetUserByGuestId g)].
Proof.
  intros Hh Hnone Htok Hg Hlookup. cbv zeta.
  rewrite (initializeUser_healthy w Hh). cbv zeta.
  unfold stored. rewrite Hnone, Htok. cbn [truthy_text parse Storable_string].
  rewrite lookup_by_guest_id_healthy by exact Hh.
  assert (Ht : truthy_string g = true) by (destruct g; [congruence | reflexivity]).
  rewrite Ht. cbn [remote set_hook]. rewrite Hlookup. cbn.
  repeat split.
Qed.

Lemma bootstrap_known_guest_witness :
  let r := initializeUser welcoming_world in
  user (hook (snd r)) = Some guest /\
  hook_error (hook (snd r)) = None /\
  disk (snd r) = <[Constants.USER_DATA := BlobUser guest]> (disk welcoming_world) /\
  trace (snd r) = [] ++ [EvRequest (GetUserByGuestId "g-2")].
Proof.
  apply (bootstrap_known_guest welcoming_world "g-2" guest).
  - reflexivity.
  - reflexivity.
  - reflexivity.
  - discriminate.
  - reflexivity.
Defined.

(** X19.  On a store that accepts its calls, with no identity persisted, no
    guest token the service knows, and the creation rejected:
    [initializeUser] resolves with the error's detail as error, the user
    state as it was, and nothing written to the store. *)
Theorem failed_bootstrap_persists_nothing w err :
  healthy w ->
  disk w !! Constants.USER_DATA = None ->
  (forall g, disk w !! Constants.GUEST_ID = Some (BlobString g) ->
             exists e, getByGuestId_reply (remote w) g = Rejected e) ->
  users_create_reply (remote w) guest_body = Rejected err ->
  let r := initializeUser w in
  fst r = Ret tt /\
  disk (snd r) = disk w /\
  user (hook (snd r)) = user (hook w) /\
  hook_error (hook (snd r)) =
    Some (str_or (response_detail err) (axios_message err)).
Proof.
  intros Hh Hnone Hlook Hcreate. cbv zeta.
  rewrite (initializeUser_healthy w Hh). cbv zeta.
  unfold stored. rewrite Hnone.
  rewrite lookup_by_guest_id_healthy by exact Hh.
  set (w0 := set_hook (mkUseUserState (user (hook w)) true None) w).
  assert (Hfail : forall v, healthy v -> remote v = remote w -> disk v = disk w ->
            user (hook v) = user (hook w) ->
            match create_guest v with
            | (Ret _, w2) =>
                (Ret tt, set_hook (mkUseUserState (user (hook w2)) false
                                     (hook_error (hook w2))) w2)
            | (Throw e, w2) =>
                (Ret tt, set_hook (mkUseUserState (user (hook w2)) false
                                     (Some (init_error_text e))) w2)
            end =
            (Ret tt, set_hook (mkUseUserState (user (hook w)) false
                        (Some (str_or (response_detail err) (axios_message err))))
                       (log (EvRequest (PostUsers guest_body)) v))).
  { intros v Hv Hr Hd Hu. rewrite (create_guest_healthy v Hv), Hr, Hcreate.
    cbn [hook log user init_error_text Api.intercept_error]. now rewrite Hu. }
  destruct (disk w !! Constants.GUEST_ID) as [[s | | | |] |] eqn:Htok;
    cbn [truthy_text parse Storable_string];
    try (rewrite Hfail by (first [exact Hh | reflexivity]); cbn; repeat split);
    try (destruct (truthy_string raw);
         rewrite Hfail by (first [exact Hh | reflexivity]); cbn; repeat split).
  destruct (truthy_string s) eqn:Hs.
  - destruct (Hlook s eq_refl) as (e & He). cbn [remote w0 set_hook]. rewrite He.
    rewrite Hfail by (first [exact Hh | reflexivity]). cbn. repeat split.
  - rewrite Hfail by (first [exact Hh | reflexivity]). cbn. repeat split.
Qed.

Lemma failed_bootstrap_persists_nothing_witness :
  let r := initializeUser unreachable_world in
  fst r = Ret tt /\
  disk (snd r) = disk unreachable_world /\
  user (hook (snd r)) = None /\
  hook_error (hook (snd r)) = Some "Network Error".
Proof.
  apply (failed_bootstrap_persists_nothing unreachable_world network_down).
  - reflexivity.
  - reflexivity.
  - intros g Hg. discriminate Hg.
  - reflexivity.
Defined.

Lemma clearUserHook_healthy w :
  healthy w ->
  clearUserHook w =
  (Ret tt,
   set_hook (mkUseUserState None (isLoading (hook w)) (hook_error (hook w)))
     (set_disk (delete Constants.USER_DATA (delete Constants.GUEST_ID (disk w))) w)).
Proof.
  intros Hh. unfold clearUserHook, clearGuestId, clearUser, bind.
  unfold storage_remove, try_catch, AsyncStorage_removeItem, AsyncStorage_call, next_fault.
  rewrite Hh. cbn [faults set_disk]. rewrite Hh. reflexivity.
Qed.

(** X20.  On a store that accepts its calls, the hook's [clearUser] removes
    the identity and the guest token and sends nothing; an [initializeUser]
    after it looks nothing up: it sends the creation of a guest only, and
    returns and persists the identity created. *)
Theorem clearUser_then_bootstrap w newUser :
  healthy w ->
  users_create_reply (remote w) guest_body = Ok newUser ->
  let w1 := snd (clearUserHook w) in
  let r := initializeUser w1 in
  user (hook w1) = None /\
  disk w1 !! Constants.USER_DATA = None /\
  disk w1 !! Constants.GUEST_ID = None /\
  trace w1 = trace w /\
  trace (snd r) = trace w ++ [EvRequest (PostUsers guest_body)] /\
  user (hook (snd r)) = Some newUser /\
  disk (snd r) !! Constants.USER_DATA = Some (BlobUser newUser).
Proof.
  intros Hh Hcreate. cbv zeta. rewrite (clearUserHook_healthy w Hh). cbn [snd].
  set (w1 := set_hook _ _).
  assert (Hu : disk w1 !! Constants.USER_DATA = None) by apply lookup_delete_eq.
  assert (Hg : disk w1 !! Constants.GUEST_ID = None).
  { unfold w1. cbn [disk set_hook set_disk].
    rewrite lookup_delete_ne by discriminate. apply lookup_delete_eq. }
  split; [reflexivity |]. split; [exact Hu |]. split; [exact Hg |].
  split; [reflexivity |].
  assert (Hh1 : healthy w1) by exact Hh.
  rewrite (initializeUser_healthy w1 Hh1). cbv zeta.
  unfold stored. rewrite Hu, Hg.
  rewrite lookup_by_guest_id_healthy by exact Hh1.
  rewrite create_guest_healthy by exact Hh1.
  cbn [remote w1 set_hook set_disk]. rewrite Hcreate. cbn.
  repeat split. apply lookup_insert_eq.
Qed.

Lemma clearUser_then_bootstrap_witness :
  let w1 := snd (clearUserHook returning_world) in
  let r := initializeUser w1 in
  user (hook w1) = None /\
  disk w1 !! Constants.USER_DATA = None /\
  disk w1 !! Constants.GUEST_ID = None /\
  trace w1 = [] /\
  trace (snd r) = [] ++ [EvRequest (PostUsers guest_body)] /\
  user (hook (snd r)) = Some guest /\
  disk (snd r) !! Constants.USER_DATA = Some (BlobUser guest).
Proof.
  apply (clearUser_then_bootstrap returning_world guest); reflexivity.
Defined.

End BootstrapMore.

(** ** Properties of the notes hook *)

Module NotesHook.

Import Api Storage Spec Samples MoreSamples Terms Cache App.

Lemma setNotes_total items w : exists w', Storage.setNotes items w = (Ret tt, w').
Proof.
  unfold Storage.setNotes, bind, Date_now, gets, storage_set, try_catch,
    AsyncStorage_setItem, AsyncStorage_call, next_fault.
  destruct (faults w) as [| [] rest]; cbn; eauto.
Qed.

(** [refresh] when the service answers the list call. *)
Lemma refresh_ok userId a items :
  notes_list_reply (backend a) (outbox a) userId = Ok items ->
  refresh userId a =
  (Ret tt,
   set_notes_hook (mkUseNotesState items false None)
     (set_device (snd (Storage.setNotes items (device a)))
        (post (GetNotes userId) a))).
Proof.
  intros Hreply. unfold refresh.
  unfold abind at 1. unfold setNotesLoading at 1, amodify at 1.
  unfold abind at 1. unfold setNotesError at 1, amodify at 1.
  unfold afinally, acatch.
  unfold abind at 1. unfold notes_list, acall.
  cbn [backend outbox set_notes_hook]. rewrite Hreply.
  unfold abind at 1. unfold setNotesShown at 1, amodify at 1.
  unfold on_device. cbn [device set_notes_hook post].
  destruct (setNotes_total items (device a)) as (w' & ->).
  reflexivity.
Qed.

(** [refresh] when the list call is rejected. *)
Lemma refresh_rejected userId a err :
  notes_list_reply (backend a) (outbox a) userId = Rejected err ->
  refresh userId a =
  let r := Storage.getNotes (device a) in
  let cached := match fst r with Ret l => l | Throw _ => [] end in
  (Ret tt,
   set_notes_hook
     (mkUseNotesState
        (if (0 <? length cached)%nat then cached else shown_notes (notes_hook a))
        false
        (Some (str_or (response_detail err) (axios_message err))))
     (set_device (snd r) (post (GetNotes userId) a))).
Proof.
  intros Hreply. unfold refresh.
  unfold abind at 1. unfold setNotesLoading at 1, amodify at 1.
  unfold abind at 1. unfold setNotesError at 1, amodify at 1.
  unfold afinally, acatch.
  unfold abind at 1. unfold notes_list, acall.
  cbn [backend outbox set_notes_hook]. rewrite Hreply.
  unfold abind at 1. unfold setNotesError at 1, amodify at 1.
  unfold abind at 1. unfold on_device. cbn [device set_notes_hook post].
  cbv zeta.
  destruct (getNotes_total (device a)) as (l & w' & ->). cbn [fst snd].
  destruct (0 <? length l)%nat; reflexivity.
Qed.

Lemma getNotes_after_setNotes items w dt :
  healthy w ->
  fst (Storage.getNotes (elapse dt (snd (Storage.setNotes items w)))) =
  if dt <? freshnessWindow then Ret items else Ret [].
Proof.
  intros Hh. rewrite (setNotes_healthy items w Hh). cbn [snd].
  unfold Storage.getNotes, bind at 1.
  rewrite storage_get_healthy by exact Hh.
  unfold stored. cbn [disk elapse set_clock set_disk].
  rewrite lookup_insert_eq. cbn [truthy_text parse Storable_CachedNotes].
  unfold bind, Date_now, gets, ret. cbn [timestamp notes].
  replace (clock (elapse dt _) - clock w) with dt
    by (unfold elapse; cbn [clock set_clock set_disk]; lia).
  destruct (dt <? freshnessWindow); reflexivity.
Qed.

Lemma refresh_total userId a :
  exists a', refresh userId a = (Ret tt, a') /\
    notes_isLoading (notes_hook a') = false /\
    outbox a' = outbox a ++ [GetNotes userId].
Proof.
  destruct (notes_list_reply (backend a) (outbox a) userId) as [items | err] eqn:Hreply.
  - rewrite (refresh_ok userId a items Hreply). eexists. repeat split.
  - rewrite (refresh_rejected userId a err Hreply). eexists. repeat split.
Qed.

(** X21.  When the service answers the list call and the store accepts the
    write, [refresh] shows the list fetched, clears the error, and
    overwrites the cache with it: for the next five minutes [getNotes]
    returns that list. *)
Theorem refresh_online userId a items dt :
  healthy (device a) ->
  notes_list_reply (backend a) (outbox a) userId = Ok items ->
  let r := refresh userId a in
  fst r = Ret tt /\
  shown_notes (notes_hook (snd r)) = items /\
  notes_error (notes_hook (snd r)) = None /\
  notes_isLoading (notes_hook (snd r)) = false /\
  outbox (snd r) = outbox a ++ [GetNotes userId] /\
  (dt < 5 * 60 * 1000 ->
   fst (Storage.getNotes (elapse dt (device (snd r)))) = Ret items).
Proof.
  intros Hh Hreply. cbv zeta. rewrite (refresh_ok userId a items Hreply).
  cbn [fst snd notes_hook set_notes_hook set_device post outbox device
       shown_notes notes_error notes_isLoading].
  repeat (split; [reflexivity |]).
  intros Hdt. rewrite getNotes_after_setNotes by exact Hh.
  apply Z.ltb_lt in Hdt. unfold freshnessWindow. now rewrite Hdt.
Qed.

Lemma refresh_online_witness :
  let r := refresh (Some 1) (blank_app first_list_only cached_world) in
  fst r = Ret tt /\
  shown_notes (notes_hook (snd r)) = [lecture; seminar] /\
  notes_error (notes_hook (snd r)) = None /\
  notes_isLoading (notes_hook (snd r)) = false /\
  outbox (snd r) = [] ++ [GetNotes (Some 1)] /\
  (299999 < 5 * 60 * 1000 ->
   fst (Storage.getNotes (elapse 299999 (device (snd r)))) = Ret [lecture; seminar]).
Proof.
  apply (refresh_online (Some 1) (blank_app first_list_only cached_world)
           [lecture; seminar] 299999); reflexivity.
Defined.

(** X22.  When the list call is rejected and the cache holds nothing or an
    entry written by [setNotes], [refresh] resolves with the error's detail
    as error and shows what [getNotes] returns, unless that is empty: then
    the list shown before stays. *)
Theorem refresh_offline userId a err :
  cache_is_own (device a) ->
  notes_list_reply (backend a) (outbox a) userId = Rejected err ->
  let r := refresh userId a in
  exists cached,
    fst (Storage.getNotes (device a)) = Ret cached /\
    fst r = Ret tt /\
    shown_notes (notes_hook (snd r)) =
      (match cached with [] => shown_notes (notes_hook a) | _ :: _ => cached end) /\
    notes_error (notes_hook (snd r)) =
      Some (str_or (response_detail err) (axios_message err)) /\
    notes_isLoading (notes_hook (snd r)) = false.
Proof.
  intros _ Hreply. cbv zeta. rewrite (refresh_rejected userId a err Hreply). cbv zeta.
  destruct (getNotes_total (device a)) as (l & w' & Hl). rewrite Hl.
  exists l. cbn. repeat (split; [reflexivity |]).
  split; [| split; reflexivity]. destruct l; reflexivity.
Qed.

Lemma refresh_offline_witness :
  let a := blank_app offline_backend (snd (Storage.setNotes [lecture] cached_world)) in
  let r := refresh (Some 1) a in
  exists cached,
    fst (Storage.getNotes (device a)) = Ret cached /\
    fst r = Ret tt /\
    shown_notes (notes_hook (snd r)) =
      (match cached with [] => [] | _ :: _ => cached end) /\
    notes_error (notes_hook (snd r)) = Some "Network Error" /\
    notes_isLoading (notes_hook (snd r)) = false.
Proof.
  apply (refresh_offline (Some 1)
           (blank_app offline_backend (snd (Storage.setNotes [lecture] cached_world)))
           network_down).
  - right. eexists. reflexivity.
  - reflexivity.
Defined.

(** X23.  When the cache holds nothing or an entry written by [setNotes],
    then whatever the service answers and whether or not AsyncStorage
    rejects its calls, [refresh] resolves (it does not reject), leaves
    [isLoading] false and has sent exactly one list call. *)
Theorem refresh_always_settles userId a :
  cache_is_own (device a) ->
  let r := refresh userId a in
  fst r = Ret tt /\
  notes_isLoading (notes_hook (snd r)) = false /\
  outbox (snd r) = outbox a ++ [GetNotes userId].
Proof.
  intros _. cbv zeta. destruct (refresh_total userId a) as (a' & -> & Hl & Ho).
  repeat split; assumption.
Qed.

Lemma refresh_always_settles_witness :
  let r := refresh (Some 1) (blank_app offline_backend flaky_world) in
  fst r = Ret tt /\
  notes_isLoading (notes_hook (snd r)) = false /\
  outbox (snd r) = [] ++ [GetNotes (Some 1)].
Proof.
  apply (refresh_always_settles (Some 1) (blank_app offline_backend flaky_world)).
  left. reflexivity.
Defined.

Lemma deleteNote_run noteId a :
  deleteNote noteId a =
  match notes_delete_reply (backend a) (outbox a) noteId with
  | Ok _ =>
      (Ret true,
       set_notes_hook
         (mkUseNotesState
            (filter (fun n => item_id n <> noteId) (shown_notes (notes_hook a)))
            (notes_isLoading (notes_hook a)) (notes_error (notes_hook a)))
         (post (DeleteNote noteId) a))
  | Rejected err =>
      (Ret false,
       set_notes_hook
         (mkUseNotesState (shown_notes (notes_hook a)) (notes_isLoading (notes_hook a))
            (Some (str_or (response_detail err) (axios_message err))))
         (post (DeleteNote noteId) a))
  end.
Proof.
  unfold deleteNote, acatch, abind, notes_delete, acall.
  destruct (notes_delete_reply (backend a) (outbox a) noteId) as [[] | err]; reflexivity.
Qed.

(** X24.  [deleteNote] takes the note out of the list shown but not out of
    the cache: after an online [refresh] and a successful [deleteNote], a
    [refresh] that fails within five minutes shows the whole cached list
    again, the deleted note included. *)
Theorem deleted_note_returns_from_cache userId a items noteId err dt :
  healthy (device a) ->
  items <> [] ->
  dt < 5 * 60 * 1000 ->
  notes_list_reply (backend a) (outbox a) userId = Ok items ->
  notes_delete_reply (backend a) (outbox a ++ [GetNotes userId]) noteId = Ok tt ->
  notes_list_reply (backend a) (outbox a ++ [GetNotes userId; DeleteNote noteId]) userId
    = Rejected err ->
  let a1 := snd (refresh userId a) in
  let a2 := snd (deleteNote noteId a1) in
  let a3 := snd (refresh userId (app_elapse dt a2)) in
  shown_notes (notes_hook a2) = filter (fun n => item_id n <> noteId) items /\
  shown_notes (notes_hook a3) = items.
Proof.
  intros Hh Hne Hdt Hlist Hdel Hoff. cbv zeta.
  rewrite (refresh_ok userId a items Hlist). cbn [snd].
  set (a1 := set_notes_hook _ _).
  rewrite (deleteNote_run noteId a1).
  cbn [backend outbox a1 set_notes_hook set_device post]. rewrite Hdel. cbn [snd].
  set (a2 := set_notes_hook _ _).
  split; [reflexivity |].
  rewrite (refresh_rejected userId (app_elapse dt a2) err).
  2: { cbn. rewrite <- app_assoc. exact Hoff. }
  cbv zeta. cbn [snd notes_hook set_notes_hook shown_notes].
  replace (device (app_elapse dt a2))
    with (elapse dt (snd (Storage.setNotes items (device a)))) by reflexivity.
  rewrite getNotes_after_setNotes by exact Hh.
  apply Z.ltb_lt in Hdt. unfold freshnessWindow. rewrite Hdt.
  destruct items; [congruence | reflexivity].
Qed.

Lemma deleted_note_returns_from_cache_witness :
  let a := blank_app first_list_only cached_world in
  let a1 := snd (refresh (Some 1) a) in
  let a2 := snd (deleteNote 3 a1) in
  let a3 := snd (refresh (Some 1) (app_elapse 60000 a2)) in
  shown_notes (notes_hook a2) = filter (fun n => item_id n <> 3) [lecture; seminar] /\
  shown_notes (notes_hook a3) = [lecture; seminar].
Proof.
  apply (deleted_note_returns_from_cache (Some 1) (blank_app first_list_only cached_world)
           [lecture; seminar] 3 network_down 60000).
  - reflexivity.
  - discriminate.
  - lia.
  - reflexivity.
  - reflexivity.
  - reflexivity.
Defined.

Lemma createNote_run userId data a :
  createNote userId data a =
  match notes_create_reply (backend a) (outbox a) data (create_params userId) with
  | Ok note =>
      (Ret (Some note),
       snd (refresh userId (post (PostNote data (create_params userId)) a)))
  | Rejected err =>
      (Ret None,
       set_notes_hook
         (mkUseNotesState (shown_notes (notes_hook a)) (notes_isLoading (notes_hook a))
            (Some (str_or (response_detail err) (axios_message err))))
         (post (PostNote data (create_params userId)) a))
  end.
Proof.
  unfold createNote, acatch. unfold abind at 1. unfold notes_create, acall.
  destruct (notes_create_reply (backend a) (outbox a) data (create_params userId))
    as [note | err]; [| reflexivity].
  unfold abind at 1.
  destruct (refresh_total userId (post (PostNote data (create_params userId)) a))
    as (a' & -> & _). reflexivity.
Qed.

(** X25.  With a cache that holds nothing or an entry written by
    [setNotes], [createNote] does not reject.  When the service creates the
    note, the hook returns it after a [refresh]: it has sent the creation,
    with a [user_id] parameter only for a truthy [userId], and then one list
    call.  When the creation is rejected it returns [null], sends nothing
    more, sets the error's detail as error and leaves the list shown and
    the device as they were. *)
Theorem createNote_then_refresh userId data a :
  cache_is_own (device a) ->
  let r := createNote userId data a in
  let sent := PostNote data (create_params userId) in
  (forall note,
     notes_create_reply (backend a) (outbox a) data (create_params userId) = Ok note ->
     fst r = Ret (Some note) /\
     outbox (snd r) = outbox a ++ [sent; GetNotes userId] /\
     notes_isLoading (notes_hook (snd r)) = false) /\
  (forall err,
     notes_create_reply (backend a) (outbox a) data (create_params userId) = Rejected err ->
     fst r = Ret None /\
     outbox (snd r) = outbox a ++ [sent] /\
     shown_notes (notes_hook (snd r)) = shown_notes (notes_hook a) /\
     notes_error (notes_hook (snd r)) =
       Some (str_or (response_detail err) (axios_message err)) /\
     device (snd r) = device a) /\
  (userId = Some 0 -> sent = PostNote data None).
Proof.
  intros _. cbv zeta. rewrite createNote_run. split; [| split].
  - intros note ->. cbn [fst snd].
    destruct (refresh_total userId (post (PostNote data (create_params userId)) a))
      as (a' & -> & Hl & Ho). cbn [snd].
    split; [reflexivity |]. split; [| exact Hl].
    rewrite Ho. cbn [outbox post]. now rewrite <- app_assoc.
  - intros err ->. cbn. repeat split.
  - intros ->. reflexivity.
Qed.

Lemma createNote_then_refresh_witness :
  let r := createNote (Some 1) draft (blank_app first_list_only cached_world) in
  fst r = Ret (Some saved_draft) /\
  outbox (snd r) = [] ++ [PostNote draft (Some 1); GetNotes (Some 1)] /\
  notes_isLoading (notes_hook (snd r)) = false.
Proof.
  apply (createNote_then_refresh (Some 1) draft (blank_app first_list_only cached_world)).
  - left. reflexivity.
  - reflexivity.
Defined.

End NotesHook.

(** ** Properties of the summary hook *)

Module SummaryHook.

Import Api Storage Spec Samples MoreSamples App.

Section Generate.

Variable toISOString : Z -> string.
Variables (noteId : option Z) (options : option GenerateSummaryRequest).
Variables (a : AppState) (n : Z).
Hypothesis has_note : usable_note_id noteId = Some n.

Lemma generateSummary_run :
  generateSummary toISOString noteId options a =
  let r := generateWithPolling toISOString n options (Some hook_callback) (device a) in
  let h := summary_hook a in
  match fst r with
  | Ret s =>
      (Ret (Some s),
       set_summary_hook
         (mkUseSummaryState (s :: summaries h) (Some s) false EmptyString None)
         (set_device (snd r) a))
  | Throw e =>
      (Ret None,
       set_summary_hook
         (mkUseSummaryState (summaries h) (currentSummary h) false EmptyString
            (Some (error_text e "Failed to generate summary")))
         (set_device (snd r) a))
  end.
Proof.
  unfold generateSummary. rewrite has_note.
  unfold afinally, acatch, abind, setIsGenerating, setSummaryError,
    setProgressMessage, setCurrentSummary, setSummaries, modify_summary_hook,
    amodify, generate_on_device, aret.
  cbn [device set_summary_hook]. cbv zeta.
  destruct (generateWithPolling toISOString n options (Some hook_callback) (device a))
    as [[s | e] w']; reflexivity.
Qed.

End Generate.

(** X26.  Whatever the service and the callback's run do, [generateSummary]
    resolves (it never rejects) and sends nothing through the notes service;
    when the hook has a note, [isGenerating] is false and the progress
    message is empty when it returns. *)
Theorem generateSummary_always_settles toISOString noteId options a :
  let r := generateSummary toISOString noteId options a in
  (exists result, fst r = Ret result) /\
  (usable_note_id noteId <> None ->
   isGenerating (summary_hook (snd r)) = false /\
   progressMessage (summary_hook (snd r)) = EmptyString) /\
  outbox (snd r) = outbox a.
Proof.
  cbv zeta. destruct (usable_note_id noteId) as [n |] eqn:Hn.
  - rewrite (generateSummary_run toISOString noteId options a n Hn). cbv zeta.
    destruct (fst (generateWithPolling _ _ _ _ _)); cbn;
      (split; [eauto |]); (split; [intros _; split; reflexivity | reflexivity]).
  - unfold generateSummary. rewrite Hn. cbn.
    split; [eauto |]. split; [intros H; congruence | reflexivity].
Qed.

Lemma generateSummary_always_settles_witness :
  let r := generateSummary ms_text (Some 5) None
             (blank_app offline_backend unreachable_world) in
  isGenerating (summary_hook (snd r)) = false /\
  progressMessage (summary_hook (snd r)) = EmptyString.
Proof.
  apply (generateSummary_always_settles ms_text (Some 5) None
           (blank_app offline_backend unreachable_world)).
  discriminate.
Defined.

(** X27.  When the orchestrator resolves with a summary, [generateSummary]
    returns it, makes it the current summary and puts it in front of the
    summaries held before, which all stay. *)
Theorem generateSummary_prepends toISOString noteId options a n s :
  usable_note_id noteId = Some n ->
  fst (generateWithPolling toISOString n options (Some hook_callback) (device a)) = Ret s ->
  let r := generateSummary toISOString noteId options a in
  fst r = Ret (Some s) /\
  summaries (summary_hook (snd r)) = s :: summaries (summary_hook a) /\
  currentSummary (summary_hook (snd r)) = Some s /\
  summary_error (summary_hook (snd r)) = None.
Proof.
  intros Hn Hrun. cbv zeta.
  rewrite (generateSummary_run toISOString noteId options a n Hn). cbv zeta.
  rewrite Hrun. cbn. repeat split.
Qed.

Lemma generateSummary_prepends_witness :
  let r := generateSummary ms_text (Some 5) None (blank_app offline_backend cached_world) in
  let s := normalize ms_text 5 "cached" 0 bare_payload in
  fst r = Ret (Some s) /\
  summaries (summary_hook (snd r)) = [s; earlier_summary] /\
  currentSummary (summary_hook (snd r)) = Some s /\
  summary_error (summary_hook (snd r)) = None.
Proof.
  apply (generateSummary_prepends ms_text (Some 5) None
           (blank_app offline_backend cached_world) 5
           (normalize ms_text 5 "cached" 0 bare_payload)); reflexivity.
Defined.

(** X28.  When the orchestrator fails, [generateSummary] returns [null] and
    keeps the summaries and the current summary as they were.  The error it
    shows is the detail of an [ApiServiceError]; for a plain [Error] (a
    timeout, a failed job with its message, a missing job id) it is always
    "Failed to generate summary": the orchestrator's own message is not
    shown. *)
Theorem generateSummary_failure_message toISOString noteId options a n e :
  usable_note_id noteId = Some n ->
  fst (generateWithPolling toISOString n options (Some hook_callback) (device a)) = Throw e ->
  let r := generateSummary toISOString noteId options a in
  fst r = Ret None /\
  summaries (summary_hook (snd r)) = summaries (summary_hook a) /\
  currentSummary (summary_hook (snd r)) = currentSummary (summary_hook a) /\
  (forall m, e = Error m ->
     summary_error (summary_hook (snd r)) = Some "Failed to generate summary") /\
  (forall m st detail, e = ApiServiceError m st detail ->
     summary_error (summary_hook (snd r)) = Some detail).
Proof.
  intros Hn Hrun. cbv zeta.
  rewrite (generateSummary_run toISOString noteId options a n Hn). cbv zeta.
  rewrite Hrun. cbn. repeat split.
  - intros m ->. reflexivity.
  - intros m st detail ->. reflexivity.
Qed.

Lemma generateSummary_failure_message_witness :
  let r := generateSummary ms_text (Some 5) None
             (blank_app offline_backend (failing_world (Some "boom"))) in
  fst r = Ret None /\
  summaries (summary_hook (snd r)) = [earlier_summary] /\
  summary_error (summary_hook (snd r)) = Some "Failed to generate summary".
Proof.
  destruct (generateSummary_failure_message ms_text (Some 5) None
              (blank_app offline_backend (failing_world (Some "boom"))) 5 (Error "boom"))
    as (H1 & H2 & _ & H4 & _).
  - reflexivity.
  - reflexivity.
  - split; [exact H1 |]. split; [exact H2 |]. apply (H4 "boom"). reflexivity.
Defined.

(** X29.  When the service answers, [loadSummaries] holds the summaries
    fetched and makes the first of them current; an empty answer leaves the
    current summary as it was.  It has sent one call. *)
Theorem loadSummaries_shows_first noteId a n fetched :
  usable_note_id noteId = Some n ->
  getForNote_reply (backend a) (outbox a) n = Ok fetched ->
  let r := loadSummaries noteId a in
  fst r = Ret tt /\
  summaries (summary_hook (snd r)) = fetched /\
  currentSummary (summary_hook (snd r)) =
    match fetched with
    | first :: _ => Some first
    | [] => currentSummary (summary_hook a)
    end /\
  outbox (snd r) = outbox a ++ [GetSummariesForNote n].
Proof.
  intros Hn Hreply. cbv zeta.
  assert (Hrun : loadSummaries noteId a =
    (Ret tt,
     set_summary_hook
       (mkUseSummaryState fetched
          (match fetched with
           | first :: _ => Some first
           | [] => currentSummary (summary_hook a)
           end)
          (isGenerating (summary_hook a)) (progressMessage (summary_hook a))
          (summary_error (summary_hook a)))
       (post (GetSummariesForNote n) a))).
  { unfold loadSummaries. rewrite Hn. unfold acatch, abind, getForNote, acall.
    rewrite Hreply. destruct fetched; reflexivity. }
  rewrite Hrun. cbn. repeat split.
Qed.

Lemma loadSummaries_shows_first_witness :
  let r := loadSummaries (Some 5) (blank_app first_list_only cached_world) in
  fst r = Ret tt /\
  summaries (summary_hook (snd r)) = [earlier_summary] /\
  currentSummary (summary_hook (snd r)) = Some earlier_summary /\
  outbox (snd r) = [] ++ [GetSummariesForNote 5].
Proof.
  apply (loadSummaries_shows_first (Some 5) (blank_app first_list_only cached_world) 5
           [earlier_summary]); reflexivity.
Defined.

End SummaryHook.
